(** * QKart backend: the cart service (src/services/cart.service.js)

    A shallow embedding of the five service functions [getCartByUser],
    [addProductToCart], [updateProductInCart], [deleteProductFromCart] and
    [checkout], over an explicit model of the Mongo collections they read
    and write, followed by the properties of the service.

    Conventions of the embedding.
    - JavaScript numbers that hold amounts (cost, quantity, walletMoney,
      total) are IEEE 754 binary64 values: Rocq's primitive [float], with
      its [+], [*], [-] and comparisons, so that round-off, the infinities
      and NaN are those of the source. [a > b] of the source is [b <? a].
    - The database calls are taken to succeed, but for [Cart.create], which
      is refused for an email that already has a cart: a [findOne] or a
      [save] that the database rejects is outside the model.
    - An [async] function is a computation in the monad [M]: it reads and
      writes the database and either returns a value or throws.  A throw
      keeps the state reached so far: writes made before it stay written.
    - The loop index and [productIndex] are numbers of [Z], with the
      sentinel [-1] of the source. *)

From Stdlib Require Import ZArith Floats.
From stdpp Require Import gmap strings list fin_maps.

Local Open Scope Z_scope.

(** ** Documents *)

Module Product.
Record t := mk { _id : string; cost : float }.
End Product.

Module CartItem.
Record t := mk { product : Product.t; quantity : float }.
End CartItem.

Module Cart.
Record t := mk { email : string; cartItems : list CartItem.t; paymentOption : string }.
End Cart.

Module User.
(** Modelled from the spec: the user model (models/user.model.js) is
    external to the service; the spec gives it a wallet balance and an
    address-configuration flag, which [hasSetNonDefaultAddress] reports. *)
Record t := mk { email : string; walletMoney : float; addressSet : bool }.

Definition hasSetNonDefaultAddress (user : t) : bool := addressSet user.
End User.

(** The part of config/config.js the service reads. *)
Record Config := { default_payment_option : string }.

(** ** Errors, status codes *)

Module httpStatus.
Definition BAD_REQUEST : Z := 400.
Definition NOT_FOUND : Z := 404.
Definition INTERNAL_SERVER_ERROR : Z := 500.
End httpStatus.

(** What a [throw] carries: the service's [ApiError], or an error raised by
    the database driver (here: the duplicate-key error of [Cart.create]). *)
Inductive exn :=
| ApiError (statusCode : Z) (message : string)
| MongoError (code : Z).

(** ** The database and the monad of service calls *)

(** The carts collection is keyed by the user's email (one cart per email),
    the users collection likewise; the products collection is scanned for
    an [_id]. *)
Record Db := mkDb {
  carts : gmap string Cart.t;
  products : list Product.t;
  users : gmap string User.t
}.

Inductive outcome (A : Type) :=
| Return (a : A)
| Throw (e : exn).
Arguments Return {A} a.
Arguments Throw {A} e.

Definition M (A : Type) : Type := Db -> outcome A * Db.

Definition ret {A} (a : A) : M A := fun s => (Return a, s).

Definition throw {A} (e : exn) : M A := fun s => (Throw e, s).

Definition bind {A B} (m : M A) (k : A -> M B) : M B :=
  fun s =>
    match m s with
    | (Return a, s') => k a s'
    | (Throw e, s') => (Throw e, s')
    end.

(** [try { m } catch (err) { h err }] *)
Definition try_catch {A} (m : M A) (h : exn -> M A) : M A :=
  fun s =>
    match m s with
    | (Return a, s') => (Return a, s')
    | (Throw e, s') => h e s'
    end.

Notation "x <- m ;; k" := (bind m (fun x => k))
  (at level 100, m at level 99, k at level 200, right associativity).
Notation "m ;;; k" := (bind m (fun _ => k))
  (at level 100, k at level 200, right associativity).

(** ** The model layer: Cart.findOne, Cart.create, Product.findOne, save *)

(** [Cart.findOne({email})] *)
Definition Cart_findOne (email : string) : M (option Cart.t) :=
  fun s => (Return (carts s !! email), s).

(** [Cart.create(doc)]: the email is unique in the collection, a second cart
    for an email is refused by the driver. *)
Definition Cart_create (doc : Cart.t) : M Cart.t :=
  fun s =>
    match carts s !! Cart.email doc with
    | Some _ => (Throw (MongoError 11000), s)
    | None =>
        (Return doc,
         mkDb (<[Cart.email doc := doc]> (carts s)) (products s) (users s))
    end.

(** [cart.save()], for a save that the database accepts: the document
    stored under the cart's email is replaced. *)
Definition Cart_save (cart : Cart.t) : M unit :=
  fun s =>
    (Return tt,
     mkDb (<[Cart.email cart := cart]> (carts s)) (products s) (users s)).

(** [user.save()], for a save that the database accepts. *)
Definition User_save (user : User.t) : M unit :=
  fun s =>
    (Return tt,
     mkDb (carts s) (products s) (<[User.email user := user]> (users s))).

(** [Product.findOne({_id})] *)
Definition Product_findOne (id : string) : M (option Product.t) :=
  fun s =>
    (Return (find (fun p => String.eqb (Product._id p) id) (products s)), s).

(** ** The loops of the service *)

(** [let productIndex = -1;
     for (let i = 0; i < cartItems.length; i++)
       if (productId == cartItems[i].product._id) productIndex = i;]
    from loop counter [i] and current [productIndex] on: the loop has no
    [break], the last match wins. *)
Fixpoint scanFrom (productId : string) (items : list CartItem.t)
    (i productIndex : Z) : Z :=
  match items with
  | [] => productIndex
  | item :: rest =>
      scanFrom productId rest (i + 1)
        (if String.eqb productId (Product._id (CartItem.product item))
         then i else productIndex)
  end.

Definition findProductIndex (productId : string) (items : list CartItem.t) : Z :=
  scanFrom productId items 0 (-1).

(** [cartItems[productIndex].quantity = quantity] *)
Definition setQuantity (items : list CartItem.t) (productIndex : Z)
    (quantity : float) : list CartItem.t :=
  alter (fun item => CartItem.mk (CartItem.product item) quantity)
        (Z.to_nat productIndex) items.

(** [cartItems.splice(productIndex, 1)] *)
Definition splice1 (items : list CartItem.t) (productIndex : Z)
    : list CartItem.t :=
  delete (Z.to_nat productIndex) items.

(** [let total = 0;
     for (...) total += cartItems[i].product.cost * cartItems[i].quantity;] *)
Definition cartTotal (items : list CartItem.t) : float :=
  fold_left
    (fun total item =>
       (total + Product.cost (CartItem.product item) * CartItem.quantity item)%float)
    items 0%float.

(** [Number(z)] for an integer [z]: the double nearest to it (the integer
    itself up to 2^53 in absolute value). *)
Definition ofZ (z : Z) : float :=
  SF2Prim (binary_normalize prec emax z 0 false).

(** ** The service *)

Section Service.
Variable config : Config.

Definition getCartByUser (user : User.t) : M Cart.t :=
  cart <- Cart_findOne (User.email user) ;;
  match cart with
  | None => throw (ApiError httpStatus.NOT_FOUND "User does not have a cart")
  | Some cart => ret cart
  end.

Definition addProductToCart (user : User.t) (productId : string)
    (quantity : float) : M Cart.t :=
  cart <- Cart_findOne (User.email user) ;;
  cart <-
    match cart with
    | None =>
        try_catch
          (created <- Cart_create
                        (Cart.mk (User.email user) []
                                 (default_payment_option config)) ;;
           ret (Some created))
          (fun err =>
             throw (ApiError httpStatus.INTERNAL_SERVER_ERROR
                      "User cart creation failed because user already have a cart"))
    | Some cart => ret (Some cart)
    end ;;
  match cart with
  | None =>
      throw (ApiError httpStatus.INTERNAL_SERVER_ERROR
               "User does not have a cart")
  | Some cart =>
      let productIndex := findProductIndex productId (Cart.cartItems cart) in
      if productIndex =? -1 then
        product <- Product_findOne productId ;;
        match product with
        | None =>
            throw (ApiError httpStatus.BAD_REQUEST
                     "Product doesn't exist in database")
        | Some product =>
            let cart :=
              Cart.mk (Cart.email cart)
                      (Cart.cartItems cart ++ [CartItem.mk product quantity])
                      (Cart.paymentOption cart) in
            Cart_save cart ;;;
            ret cart
        end
      else
        throw (ApiError httpStatus.BAD_REQUEST
                 "Product already in cart. use the cart sidebar to update or remove product from cart")
  end.

Definition updateProductInCart (user : User.t) (productId : string)
    (quantity : float) : M Cart.t :=
  cart <- Cart_findOne (User.email user) ;;
  match cart with
  | None =>
      throw (ApiError httpStatus.BAD_REQUEST
               "User does not have a cart. Use POST to create cart and add a product")
  | Some cart =>
      product <- Product_findOne productId ;;
      match product with
      | None =>
          throw (ApiError httpStatus.BAD_REQUEST
                   "Product doesn't exist in database")
      | Some _ =>
          let productIndex :=
            findProductIndex productId (Cart.cartItems cart) in
          if productIndex =? -1 then
            throw (ApiError httpStatus.BAD_REQUEST "Product not in cart")
          else
            let cart :=
              Cart.mk (Cart.email cart)
                      (setQuantity (Cart.cartItems cart) productIndex quantity)
                      (Cart.paymentOption cart) in
            Cart_save cart ;;;
            ret cart
      end
  end.

Definition deleteProductFromCart (user : User.t) (productId : string)
    : M Cart.t :=
  cart <- Cart_findOne (User.email user) ;;
  match cart with
  | None =>
      throw (ApiError httpStatus.BAD_REQUEST "User does not have a cart")
  | Some cart =>
      let productIndex := findProductIndex productId (Cart.cartItems cart) in
      if productIndex =? -1 then
        throw (ApiError httpStatus.BAD_REQUEST "Product not in cart")
      else
        let cart :=
          Cart.mk (Cart.email cart)
                  (splice1 (Cart.cartItems cart) productIndex)
                  (Cart.paymentOption cart) in
        Cart_save cart ;;;
        ret cart
  end.

Definition checkout (user : User.t) : M unit :=
  cart <- Cart_findOne (User.email user) ;;
  match cart with
  | None => throw (ApiError httpStatus.NOT_FOUND "User does not have a cart")
  | Some cart =>
      if (Z.of_nat (length (Cart.cartItems cart)) =? 0) then
        throw (ApiError httpStatus.BAD_REQUEST "Cart is empty")
      else
        let hasSetNonDefaultAddress := User.hasSetNonDefaultAddress user in
        if negb hasSetNonDefaultAddress then
          throw (ApiError httpStatus.BAD_REQUEST "Address not set")
        else
          let total := cartTotal (Cart.cartItems cart) in
          if (User.walletMoney user <? total)%float then
            throw (ApiError httpStatus.BAD_REQUEST
                     "User has insufficient money to process")
          else
            let user :=
              User.mk (User.email user) (User.walletMoney user - total)%float
                      (User.addressSet user) in
            let cart := Cart.mk (Cart.email cart) [] (Cart.paymentOption cart) in
            User_save user ;;;
            Cart_save cart
  end.
End Service.

(** ** Vocabulary of the properties *)

(** The product identifier of a line item, and those of an item list. *)
Definition itemId (item : CartItem.t) : string :=
  Product._id (CartItem.product item).

Definition itemIds (items : list CartItem.t) : list string :=
  itemId <$> items.

(** The product identifiers of a cart are pairwise distinct. *)
Definition distinctIds (cart : Cart.t) : Prop :=
  NoDup (itemIds (Cart.cartItems cart)).

(** ... for the cart stored under an email, if there is one. *)
Definition distinctAt (email : string) (s : Db) : Prop :=
  forall cart, carts s !! email = Some cart -> distinctIds cart.

(** ... and for every cart of the collection. *)
Definition cartsDistinct (s : Db) : Prop :=
  forall email, distinctAt email s.

(** No document of the products collection has this identifier. *)
Definition absentFromProducts (productId : string) (s : Db) : Prop :=
  Forall (fun p => Product._id p ≠ productId) (products s).

(** The state after a call, and whether the call threw with a given status. *)
Definition stateAfter {A} (r : outcome A * Db) : Db := snd r.

Definition throwsStatus {A} (r : outcome A * Db) (status : Z) : Prop :=
  exists message, fst r = Throw (ApiError status message).

(** The cart found for the user carries the user's email, as a document
    matched by [findOne({email: user.email})] does. *)
Definition ownCart (user : User.t) (s : Db) : Prop :=
  forall cart,
    carts s !! User.email user = Some cart -> Cart.email cart = User.email user.

(** Whatever the call throws is an [ApiError] with one of these statuses. *)
Definition throwsOnly {A} (r : outcome A * Db) (statuses : list Z) : Prop :=
  forall e,
    fst r = Throw e ->
    exists status message, e = ApiError status message /\ status ∈ statuses.

(** The call returned, or it left the store as it found it. *)
Definition returnedOrUntouched {A} (r : outcome A * Db) (s : Db) : Prop :=
  (exists a, fst r = Return a) \/ snd r = s.

(** What a call for [user] may write: the user's own cart and user document,
    never the products, never a document stored under another email. *)
Definition writesOnlyFor (user : User.t) (s s' : Db) : Prop :=
  products s' = products s
  /\ (forall email, email ≠ User.email user -> carts s' !! email = carts s !! email)
  /\ (forall email, email ≠ User.email user -> users s' !! email = users s !! email).

(** Every cart of [s] is still stored in [s'], under the same key, with the
    same email and payment option. *)
Definition cartsKept (s s' : Db) : Prop :=
  forall email cart,
    carts s !! email = Some cart ->
    exists cart',
      carts s' !! email = Some cart'
      /\ Cart.email cart' = Cart.email cart
      /\ Cart.paymentOption cart' = Cart.paymentOption cart.



(** ** Sample data *)

Module Sample.
Definition cfg : Config := {| default_payment_option := "PAYMENT_OPTION_DEFAULT" |}.
Definition tv : Product.t := Product.mk "tv" 50.
Definition pen : Product.t := Product.mk "pen" 30.
Definition alice : User.t := User.mk "alice@qkart" 130 true.
Definition bob : User.t := User.mk "bob@qkart" 130 false.
Definition carol : User.t := User.mk "carol@qkart" 0 true.
Definition aliceCart : Cart.t :=
  Cart.mk "alice@qkart" [CartItem.mk tv 2; CartItem.mk pen 1] "PAYMENT_OPTION_DEFAULT".
Definition bobCart : Cart.t :=
  Cart.mk "bob@qkart" [CartItem.mk tv 2; CartItem.mk pen 1] "PAYMENT_OPTION_DEFAULT".
Definition carolCart : Cart.t :=
  Cart.mk "carol@qkart" [] "PAYMENT_OPTION_DEFAULT".
(** A store with the three carts, and one with no cart at all. *)
Definition db : Db :=
  mkDb (<["alice@qkart" := aliceCart]>
          (<["bob@qkart" := bobCart]> {["carol@qkart" := carolCart]}))
       [tv; pen] ∅.
Definition noCarts : Db := mkDb ∅ [tv; pen] ∅.
(** alice with a wallet below her cart's total. *)
Definition poorAlice : User.t := User.mk "alice@qkart" 100 true.
(** A store whose only cart lists the tv twice, and one whose cart holds a
    product that the products collection has lost. *)
Definition twiceCart : Cart.t :=
  Cart.mk "alice@qkart" [CartItem.mk tv 1; CartItem.mk pen 1; CartItem.mk tv 3]
          "PAYMENT_OPTION_DEFAULT".
Definition twiceDb : Db := mkDb {["alice@qkart" := twiceCart]} [tv; pen] ∅.
Definition staleDb : Db := mkDb {["alice@qkart" := aliceCart]} [pen] ∅.
(** A store that also sells a radio, which alice's cart does not hold yet. *)
Definition radioDb : Db :=
  mkDb {["alice@qkart" := aliceCart]} [tv; pen; Product.mk "radio" 20] ∅.
(** Carts at the edges of double arithmetic: a product that is not a double
    (dora), units lost next to 2^53 (erin), a total that is NaN (frank), an
    infinite wallet and total (gina). *)
Definition dora : User.t := User.mk "dora@qkart" (ofZ 9007199515875290) true.
Definition doraCart : Cart.t :=
  Cart.mk "dora@qkart"
    [CartItem.mk (Product.mk "plot" (ofZ 94906267)) (ofZ 94906267)]
    "PAYMENT_OPTION_DEFAULT".
Definition erin : User.t := User.mk "erin@qkart" (ofZ (2 ^ 53 + 2)) true.
Definition erinCart : Cart.t :=
  Cart.mk "erin@qkart"
    [CartItem.mk (Product.mk "vault" (ofZ (2 ^ 53))) (ofZ 1);
     CartItem.mk (Product.mk "coin" (ofZ 1)) (ofZ 1);
     CartItem.mk (Product.mk "token" (ofZ 1)) (ofZ 1)]
    "PAYMENT_OPTION_DEFAULT".
Definition frankCart : Cart.t :=
  Cart.mk "frank@qkart"
    [CartItem.mk (Product.mk "estate" (ofZ (2 ^ 1023))) 4;
     CartItem.mk (Product.mk "refund" (ofZ (2 ^ 1023))) (-4)]
    "PAYMENT_OPTION_DEFAULT".
Definition gina : User.t := User.mk "gina@qkart" infinity true.
Definition ginaCart : Cart.t :=
  Cart.mk "gina@qkart"
    [CartItem.mk (Product.mk "estate" (ofZ (2 ^ 1023))) 4]
    "PAYMENT_OPTION_DEFAULT".
Definition edges : Db :=
  mkDb (<["dora@qkart" := doraCart]>
          (<["erin@qkart" := erinCart]>
             (<["frank@qkart" := frankCart]> {["gina@qkart" := ginaCart]})))
       [] ∅.
End Sample.

(** * Properties *)

(** ** The duplicate scan *)

Section Scan.
Implicit Types (items : list CartItem.t) (productId : string).

Lemma itemIds_app items1 items2 :
  itemIds (items1 ++ items2) = itemIds items1 ++ itemIds items2.
Proof. apply fmap_app. Qed.

Lemma eqb_itemId productId item :
  String.eqb productId (itemId item) = bool_decide (itemId item = productId).
Proof.
  case_bool_decide as H.
  - apply String.eqb_eq. done.
  - apply String.eqb_neq. congruence.
Qed.

(** Without a match the scan hands back the [productIndex] it was given. *)
Lemma scanFrom_absent productId items :
  productId ∉ itemIds items ->
  forall i productIndex, scanFrom productId items i productIndex = productIndex.
Proof.
  induction items as [|item rest IH]; intros Hnot i productIndex; simpl.
  - reflexivity.
  - apply not_elem_of_cons in Hnot as [Hne Hrest].
    fold (itemId item). rewrite eqb_itemId.
    rewrite bool_decide_eq_false_2 by congruence.
    apply IH, Hrest.
Qed.

(** With a match, it is the position of the last one, counted from [i]. *)
Lemma scanFrom_last productId before item after :
  itemId item = productId ->
  productId ∉ itemIds after ->
  forall i productIndex,
    scanFrom productId (before ++ item :: after) i productIndex
    = i + Z.of_nat (length before).
Proof.
  intros Hid Hafter.
  induction before as [|x before IH]; intros i productIndex; simpl.
  - fold (itemId item). rewrite eqb_itemId, bool_decide_eq_true_2 by done.
    rewrite scanFrom_absent by done. lia.
  - rewrite IH. lia.
Qed.

(** Every list that holds the identifier splits at its last occurrence. *)
Lemma last_occurrence productId items :
  productId ∈ itemIds items ->
  exists before item after,
    items = before ++ item :: after
    /\ itemId item = productId
    /\ productId ∉ itemIds after.
Proof.
  induction items as [|x rest IH]; intros Hin.
  - inversion Hin.
  - destruct (decide (productId ∈ itemIds rest)) as [Hrest|Hrest].
    + destruct (IH Hrest) as (before & item & after & -> & Hid & Hafter).
      exists (x :: before), item, after. done.
    + exists [], x, rest. split; [done|]. split; [|done].
      apply elem_of_cons in Hin as [Heq|Hin']; [done|contradiction].
Qed.

Lemma findProductIndex_absent productId items :
  productId ∉ itemIds items -> findProductIndex productId items = -1.
Proof. intros H. unfold findProductIndex. by apply scanFrom_absent. Qed.

Lemma findProductIndex_last productId before item after :
  itemId item = productId ->
  productId ∉ itemIds after ->
  findProductIndex productId (before ++ item :: after)
  = Z.of_nat (length before).
Proof.
  intros Hid Hafter. unfold findProductIndex.
  rewrite scanFrom_last by done. lia.
Qed.

(** The sentinel [-1] survives the loop exactly when nothing matched. *)
Lemma findProductIndex_sentinel productId items :
  findProductIndex productId items = -1 <-> productId ∉ itemIds items.
Proof.
  split.
  - intros Hidx Hin.
    destruct (last_occurrence _ _ Hin) as (before & item & after & -> & Hid & Ha).
    rewrite findProductIndex_last in Hidx by done. lia.
  - apply findProductIndex_absent.
Qed.

Lemma setQuantity_last before item after quantity :
  setQuantity (before ++ item :: after) (Z.of_nat (length before)) quantity
  = before ++ CartItem.mk (CartItem.product item) quantity :: after.
Proof.
  unfold setQuantity. rewrite Nat2Z.id.
  induction before as [|x before IH]; simpl; [done|].
  f_equal. apply IH.
Qed.

Lemma splice1_middle before item after :
  splice1 (before ++ item :: after) (Z.of_nat (length before))
  = before ++ after.
Proof. unfold splice1. rewrite Nat2Z.id. apply delete_middle. Qed.

Lemma itemIds_setQuantity items productIndex quantity :
  itemIds (setQuantity items productIndex quantity) = itemIds items.
Proof.
  unfold itemIds, setQuantity.
  generalize (Z.to_nat productIndex) as n.
  induction items as [|x rest IH]; intros [|n]; simpl; try done.
  f_equal. apply IH.
Qed.

Lemma distinct_splice1 items productIndex :
  NoDup (itemIds items) -> NoDup (itemIds (splice1 items productIndex)).
Proof.
  unfold itemIds, splice1. rewrite list_fmap_delete.
  intros Hnd. eapply sublist_NoDup; [exact Hnd|apply sublist_delete].
Qed.
End Scan.

(** ** Double arithmetic: what the checks of [checkout] rest on *)

Section Doubles.

Lemma SFcompare_antisym (x y : spec_float) :
  SFcompare y x = option_map CompOpp (SFcompare x y).
Proof.
  destruct x as [sx|sx| |sx mx ex], y as [sy|sy| |sy my ey]; simpl;
    try reflexivity; try (by destruct sx); try (by destruct sy);
    try (by destruct sx, sy).
  pose proof (Pos.compare_cont_antisym mx my Eq) as Hm. simpl in Hm.
  destruct sx, sy; simpl; try reflexivity;
    rewrite (Z.compare_antisym ex ey);
    destruct (ex ?= ey); simpl; try reflexivity;
    rewrite <- Hm; by destruct (Pos.compare_cont Eq mx my).
Qed.

(** [a <= b] rules out [a > b], and so does [a == b]. *)
Lemma leb_not_gt (a b : float) :
  (a <=? b)%float = true -> (b <? a)%float = false.
Proof.
  rewrite FloatAxioms.leb_spec, FloatAxioms.ltb_spec. unfold SFleb, SFltb.
  rewrite (SFcompare_antisym (Prim2SF a) (Prim2SF b)).
  by destruct (SFcompare (Prim2SF a) (Prim2SF b)) as [[]|].
Qed.

Lemma eqb_not_gt (a b : float) :
  (a =? b)%float = true -> (b <? a)%float = false.
Proof.
  rewrite FloatAxioms.eqb_spec, FloatAxioms.ltb_spec. unfold SFeqb, SFltb.
  rewrite (SFcompare_antisym (Prim2SF a) (Prim2SF b)).
  by destruct (SFcompare (Prim2SF a) (Prim2SF b)) as [[]|].
Qed.

Lemma Prim2SF_zero : Prim2SF 0 = S754_zero false.
Proof. reflexivity. Qed.

Lemma Prim2SF_infinity : Prim2SF infinity = S754_infinity false.
Proof. reflexivity. Qed.

Lemma is_infinity_false (x : float) (s : bool) :
  is_infinity x = false -> Prim2SF x <> S754_infinity s.
Proof.
  unfold is_infinity.
  rewrite FloatAxioms.eqb_spec, abs_spec, Prim2SF_infinity.
  intros Hfin Hinf. rewrite Hinf in Hfin. discriminate.
Qed.


Lemma shl_align_same (m : positive) (e : Z) : shl_align m e e = (m, e).
Proof. unfold shl_align. by rewrite Z.sub_diag. Qed.

(** Two doubles that compare equal, the second not an infinity, leave a
    zero when the first is subtracted from the second. *)
Lemma SFsub_equal (x y : spec_float) :
  SFeqb x y = true ->
  (forall s, y <> S754_infinity s) ->
  exists s, SF64sub y x = S754_zero s.
Proof.
  unfold SFeqb.
  destruct x as [sx|sx| |sx mx ex], y as [sy|sy| |sy my ey]; simpl;
    intros Heq Hfin; try discriminate;
    try (destruct sx; discriminate); try (destruct sy; discriminate).
  - destruct sy, sx; by eexists.
  - by destruct (Hfin sy).
  - assert (sx = sy /\ ex = ey /\ mx = my) as (-> & -> & ->).
    { destruct sx, sy; try discriminate;
        destruct (Z.compare_spec ex ey) as [He| |]; try discriminate;
        (split; [done|]; split; [done|]).
      - destruct (Pos.compare_cont Eq mx my) eqn:Hc; try discriminate.
        by apply Pos.compare_eq.
      - destruct (Pos.compare_cont Eq mx my) eqn:Hc; try discriminate.
        by apply Pos.compare_eq. }
    exists false. unfold SF64sub, SFsub.
    rewrite Z.min_id, shl_align_same. simpl fst.
    by rewrite Z.sub_diag.
Qed.

Lemma sub_equal_is_zero (total wallet : float) :
  (total =? wallet)%float = true ->
  is_infinity wallet = false ->
  (wallet - total =? 0)%float = true.
Proof.
  intros Heq Hfin. rewrite FloatAxioms.eqb_spec in Heq.
  rewrite FloatAxioms.eqb_spec, sub_spec, Prim2SF_zero.
  destruct (SFsub_equal _ _ Heq) as [s Hs].
  - intros s. by apply is_infinity_false.
  - by rewrite Hs.
Qed.













End Doubles.

(** ** checkout *)

(** The one path through [checkout] that returns: the check
    [total > user.walletMoney] has come out false. *)
Lemma checkout_pays (user : User.t) (s : Db) (cart : Cart.t) :
  carts s !! User.email user = Some cart ->
  Cart.cartItems cart ≠ [] ->
  User.hasSetNonDefaultAddress user = true ->
  (User.walletMoney user <? cartTotal (Cart.cartItems cart))%float = false ->
  checkout user s
  = (Return tt,
     mkDb (<[Cart.email cart := Cart.mk (Cart.email cart) [] (Cart.paymentOption cart)]>
             (carts s))
          (products s)
          (<[User.email user :=
               User.mk (User.email user)
                       (User.walletMoney user - cartTotal (Cart.cartItems cart))%float
                       (User.addressSet user)]> (users s))).
Proof.
  intros Hcart Hitems Haddr Hfunds.
  unfold checkout, bind, Cart_findOne. simpl. rewrite Hcart.
  destruct (Cart.cartItems cart) as [|item rest] eqn:E; [done|].
  rewrite Haddr. simpl negb. cbv iota.
  replace (Z.of_nat (length (item :: rest)) =? 0) with false
    by (symmetry; apply Z.eqb_neq; simpl length; lia).
  rewrite Hfunds. reflexivity.
Qed.

(** Conversely, a [checkout] that returns went through that path. *)
Lemma checkout_returned (user : User.t) (s s' : Db) :
  checkout user s = (Return tt, s') ->
  exists cart,
    carts s !! User.email user = Some cart
    /\ Cart.cartItems cart ≠ []
    /\ User.hasSetNonDefaultAddress user = true
    /\ (User.walletMoney user <? cartTotal (Cart.cartItems cart))%float = false.
Proof.
  unfold checkout, bind, Cart_findOne, throw. simpl.
  destruct (carts s !! User.email user) as [cart|] eqn:Hcart; [|discriminate].
  destruct (Cart.cartItems cart) as [|item rest] eqn:E; [discriminate|].
  replace (Z.of_nat (length (item :: rest)) =? 0) with false
    by (symmetry; apply Z.eqb_neq; simpl length; lia).
  destruct (User.hasSetNonDefaultAddress user) eqn:Haddr; [|discriminate].
  simpl negb. cbv iota.
  destruct (PrimFloat.ltb (User.walletMoney user) (cartTotal (item :: rest)))
    eqn:Hgt; [discriminate|].
  intros _. exists cart. rewrite E. by repeat split.
Qed.

(** C1, as the claim has it, fails on the amount: the total and the debit
    are doubles. dora's cart holds one item, cost 94906267 and quantity
    94906267; her wallet, 9007199515875290, covers the product
    9007199515875289, and what should be left is 1. The loop's total is the
    double 9007199515875288, and [checkout] saves a wallet of 2. *)
Lemma checkout_debit_is_rounded :
  carts Sample.edges !! User.email Sample.dora = Some Sample.doraCart
  /\ Cart.cartItems Sample.doraCart
     = [CartItem.mk (Product.mk "plot" (ofZ 94906267)) (ofZ 94906267)]
  /\ User.hasSetNonDefaultAddress Sample.dora = true
  /\ User.walletMoney Sample.dora = ofZ 9007199515875290
  /\ 94906267 * 94906267 <= 9007199515875290
  /\ 9007199515875290 - 94906267 * 94906267 = 1
  /\ fst (checkout Sample.dora Sample.edges) = Return tt
  /\ users (snd (checkout Sample.dora Sample.edges)) !! User.email Sample.dora
     = Some (User.mk "dora@qkart" (ofZ 2) true)
  /\ (ofZ 2 =? ofZ 1)%float = false.
Proof. repeat split; vm_compute; congruence. Qed.

(** C1, amended: when the user's cart exists and is non-empty, the address
    check passes and the wallet is at least the total that the loop
    accumulates in double arithmetic, [checkout] returns; the user it saves
    has as wallet the double difference of the wallet and that total, and
    the cart is still stored for the user, with its item list empty. Nothing
    else of the store moves. *)
Theorem checkout_succeeds (user : User.t) (s : Db) (cart : Cart.t) :
  carts s !! User.email user = Some cart ->
  Cart.email cart = User.email user ->
  Cart.cartItems cart ≠ [] ->
  User.hasSetNonDefaultAddress user = true ->
  (cartTotal (Cart.cartItems cart) <=? User.walletMoney user)%float = true ->
  exists s',
    checkout user s = (Return tt, s')
    /\ users s' !! User.email user
       = Some (User.mk (User.email user)
                 (User.walletMoney user - cartTotal (Cart.cartItems cart))%float
                 (User.addressSet user))
    /\ carts s' !! User.email user
       = Some (Cart.mk (Cart.email cart) [] (Cart.paymentOption cart))
    /\ (forall e, e ≠ User.email user -> carts s' !! e = carts s !! e)
    /\ (forall e, e ≠ User.email user -> users s' !! e = users s !! e)
    /\ products s' = products s.
Proof.
  intros Hcart Hemail Hitems Haddr Hfunds.
  apply leb_not_gt in Hfunds.
  eexists. split; [by apply checkout_pays|]. simpl. rewrite Hemail.
  repeat split.
  - apply lookup_insert_eq.
  - apply lookup_insert_eq.
  - intros e He. by apply lookup_insert_ne.
  - intros e He. by apply lookup_insert_ne.
Qed.

Lemma checkout_succeeds_witness :
  exists s',
    checkout Sample.alice Sample.db = (Return tt, s')
    /\ users s' !! "alice@qkart" = Some (User.mk "alice@qkart" 0 true)
    /\ carts s' !! "alice@qkart"
       = Some (Cart.mk "alice@qkart" [] "PAYMENT_OPTION_DEFAULT").
Proof.
  destruct (checkout_succeeds Sample.alice Sample.db Sample.aliceCart)
    as (s' & Hrun & Huser & Hcart & _);
    [reflexivity | reflexivity | discriminate | reflexivity | reflexivity |].
  exists s'. split; [exact Hrun|]. split; [exact Huser | exact Hcart].
Defined.




(** C6: for a user whose cart holds at least one item, [checkout] does not
    throw the empty-cart error; for a user whose cart exists with an empty
    item list, it throws that error, with status 400, and writes nothing. *)
Theorem checkout_empty_cart (user : User.t) (s : Db) (cart : Cart.t) :
  carts s !! User.email user = Some cart ->
  (Cart.cartItems cart ≠ [] ->
     fst (checkout user s) ≠ Throw (ApiError 400 "Cart is empty"))
  /\ (Cart.cartItems cart = [] ->
        checkout user s = (Throw (ApiError 400 "Cart is empty"), s)).
Proof.
  intros Hcart.
  unfold checkout, bind, Cart_findOne, throw. simpl. rewrite Hcart.
  split.
  - intros Hitems.
    destruct (Cart.cartItems cart) as [|item rest]; [done|].
    replace (Z.of_nat (length (item :: rest)) =? 0) with false
      by (symmetry; apply Z.eqb_neq; simpl length; lia).
    destruct (negb _); [simpl; discriminate|].
    destruct (PrimFloat.ltb _ _); simpl; discriminate.
  - intros ->. reflexivity.
Qed.

Lemma checkout_empty_cart_witness :
  fst (checkout Sample.alice Sample.db) ≠ Throw (ApiError 400 "Cart is empty")
  /\ checkout Sample.carol Sample.db
     = (Throw (ApiError 400 "Cart is empty"), Sample.db).
Proof.
  split.
  - apply (checkout_empty_cart Sample.alice Sample.db Sample.aliceCart);
      [reflexivity | discriminate].
  - apply (checkout_empty_cart Sample.carol Sample.db Sample.carolCart);
      reflexivity.
Defined.

(** C10, as the claim has it, fails: a total equal to the wallet does not
    make [checkout] return when the address check fails (bob: total 130,
    wallet 130, default address), nor when the cart is empty (carol: total 0,
    wallet 0). And the total is the loop's double: erin's items cost 2^53, 1
    and 1, her wallet is 2^53 + 2, the sum; the loop's total is 2^53 and
    [checkout] leaves a wallet of 2. With an infinite wallet and an infinite
    total (gina) it leaves NaN. *)
Lemma checkout_equal_total_not_enough :
  (carts Sample.db !! User.email Sample.bob = Some Sample.bobCart
   /\ (cartTotal (Cart.cartItems Sample.bobCart)
       =? User.walletMoney Sample.bob)%float = true
   /\ checkout Sample.bob Sample.db
      = (Throw (ApiError 400 "Address not set"), Sample.db))
  /\ (carts Sample.db !! User.email Sample.carol = Some Sample.carolCart
      /\ (cartTotal (Cart.cartItems Sample.carolCart)
          =? User.walletMoney Sample.carol)%float = true
      /\ checkout Sample.carol Sample.db
         = (Throw (ApiError 400 "Cart is empty"), Sample.db))
  /\ (Cart.cartItems Sample.erinCart
      = [CartItem.mk (Product.mk "vault" (ofZ (2 ^ 53))) (ofZ 1);
         CartItem.mk (Product.mk "coin" (ofZ 1)) (ofZ 1);
         CartItem.mk (Product.mk "token" (ofZ 1)) (ofZ 1)]
      /\ User.walletMoney Sample.erin = ofZ (2 ^ 53 + 2)
      /\ 2 ^ 53 * 1 + 1 * 1 + 1 * 1 = 2 ^ 53 + 2
      /\ User.hasSetNonDefaultAddress Sample.erin = true
      /\ cartTotal (Cart.cartItems Sample.erinCart) = ofZ (2 ^ 53)
      /\ fst (checkout Sample.erin Sample.edges) = Return tt
      /\ users (snd (checkout Sample.erin Sample.edges)) !! User.email Sample.erin
         = Some (User.mk "erin@qkart" (ofZ 2) true)
      /\ (ofZ 2 =? 0)%float = false)
  /\ ((cartTotal (Cart.cartItems Sample.ginaCart)
       =? User.walletMoney Sample.gina)%float = true
      /\ fst (checkout Sample.gina Sample.edges) = Return tt
      /\ users (snd (checkout Sample.gina Sample.edges)) !! User.email Sample.gina
         = Some (User.mk "gina@qkart" nan true)
      /\ (nan =? 0)%float = false).
Proof. repeat split; vm_compute; congruence. Qed.

(** C10, amended: when the user's cart exists and is non-empty, the address
    check passes and the total that the loop accumulates in double
    arithmetic is equal to the wallet, a finite one, [checkout] returns (the
    funds check is a strict greater-than) and the user it saves has a wallet
    of zero. *)
Theorem checkout_exact_balance (user : User.t) (s : Db) (cart : Cart.t) :
  carts s !! User.email user = Some cart ->
  Cart.cartItems cart ≠ [] ->
  User.hasSetNonDefaultAddress user = true ->
  (cartTotal (Cart.cartItems cart) =? User.walletMoney user)%float = true ->
  is_infinity (User.walletMoney user) = false ->
  exists s' user',
    checkout user s = (Return tt, s')
    /\ users s' !! User.email user = Some user'
    /\ User.walletMoney user'
       = (User.walletMoney user - cartTotal (Cart.cartItems cart))%float
    /\ (User.walletMoney user' =? 0)%float = true.
Proof.
  intros Hcart Hitems Haddr Htotal Hfinite.
  eexists _, _. split; [apply checkout_pays; try done; by apply eqb_not_gt|].
  simpl. split; [apply lookup_insert_eq|]. simpl.
  split; [reflexivity|]. by apply sub_equal_is_zero.
Qed.

Lemma checkout_exact_balance_witness :
  exists s' user',
    checkout Sample.alice Sample.db = (Return tt, s')
    /\ users s' !! "alice@qkart" = Some user'
    /\ User.walletMoney user'
       = (130 - cartTotal (Cart.cartItems Sample.aliceCart))%float
    /\ (User.walletMoney user' =? 0)%float = true.
Proof.
  apply (checkout_exact_balance Sample.alice Sample.db Sample.aliceCart);
    [reflexivity | discriminate | reflexivity | reflexivity | reflexivity].
Defined.

(** ** Calls for a user without a cart *)

(** C2, as the claim has it, fails: for a user without a cart,
    [updateProductInCart] and [deleteProductFromCart] throw with status 400,
    not 404, and [addProductToCart] creates the cart and returns. *)
Lemma no_cart_not_always_404 :
  carts Sample.noCarts !! User.email Sample.alice = None
  /\ updateProductInCart Sample.alice "tv" 1 Sample.noCarts
     = (Throw (ApiError 400
                 "User does not have a cart. Use POST to create cart and add a product"),
        Sample.noCarts)
  /\ deleteProductFromCart Sample.alice "tv" Sample.noCarts
     = (Throw (ApiError 400 "User does not have a cart"), Sample.noCarts)
  /\ fst (addProductToCart Sample.cfg Sample.alice "tv" 1 Sample.noCarts)
     = Return (Cart.mk "alice@qkart" [CartItem.mk Sample.tv 1]
                       "PAYMENT_OPTION_DEFAULT").
Proof. repeat split. Qed.

(** What [addProductToCart] does for a user without a cart: the cart is
    created and stored first, and the product lookup decides the rest. *)
Lemma addProductToCart_no_cart (config : Config) (user : User.t)
    (productId : string) (quantity : float) (s : Db) :
  carts s !! User.email user = None ->
  let created :=
    Cart.mk (User.email user) [] (default_payment_option config) in
  let s1 := mkDb (<[User.email user := created]> (carts s)) (products s) (users s) in
  addProductToCart config user productId quantity s
  = match find (fun p => String.eqb (Product._id p) productId) (products s) with
    | None =>
        (Throw (ApiError 400 "Product doesn't exist in database"), s1)
    | Some product =>
        let cart :=
          Cart.mk (User.email user) [CartItem.mk product quantity]
                  (default_payment_option config) in
        (Return cart,
         mkDb (<[User.email user := cart]> (carts s1)) (products s) (users s))
    end.
Proof.
  intros Hnone. simpl.
  unfold addProductToCart, bind, try_catch, Cart_findOne, Cart_create,
    Product_findOne, Cart_save, ret, throw.
  simpl. rewrite Hnone. simpl. rewrite Hnone. simpl.
  destruct (find _ (products s)); reflexivity.
Qed.

(** ... and for a user with a cart: scan, then product lookup, then append. *)
Lemma addProductToCart_with_cart (config : Config) (user : User.t)
    (productId : string) (quantity : float) (s : Db) (cart : Cart.t) :
  carts s !! User.email user = Some cart ->
  addProductToCart config user productId quantity s
  = if findProductIndex productId (Cart.cartItems cart) =? -1 then
      match find (fun p => String.eqb (Product._id p) productId) (products s) with
      | None =>
          (Throw (ApiError 400 "Product doesn't exist in database"), s)
      | Some product =>
          let cart' :=
            Cart.mk (Cart.email cart)
                    (Cart.cartItems cart ++ [CartItem.mk product quantity])
                    (Cart.paymentOption cart) in
          (Return cart',
           mkDb (<[Cart.email cart := cart']> (carts s)) (products s) (users s))
      end
    else
      (Throw (ApiError 400
                "Product already in cart. use the cart sidebar to update or remove product from cart"),
       s).
Proof.
  intros Hcart.
  unfold addProductToCart, bind, Cart_findOne, Product_findOne, Cart_save,
    ret, throw.
  simpl. rewrite Hcart.
  destruct (_ =? -1); [|reflexivity].
  destruct (find _ (products s)); reflexivity.
Qed.

Lemma updateProductInCart_with_cart (user : User.t) (productId : string)
    (quantity : float) (s : Db) (cart : Cart.t) :
  carts s !! User.email user = Some cart ->
  updateProductInCart user productId quantity s
  = match find (fun p => String.eqb (Product._id p) productId) (products s) with
    | None =>
        (Throw (ApiError 400 "Product doesn't exist in database"), s)
    | Some _ =>
        let productIndex := findProductIndex productId (Cart.cartItems cart) in
        if productIndex =? -1 then
          (Throw (ApiError 400 "Product not in cart"), s)
        else
          let cart' :=
            Cart.mk (Cart.email cart)
                    (setQuantity (Cart.cartItems cart) productIndex quantity)
                    (Cart.paymentOption cart) in
          (Return cart',
           mkDb (<[Cart.email cart := cart']> (carts s)) (products s) (users s))
    end.
Proof.
  intros Hcart.
  unfold updateProductInCart, bind, Cart_findOne, Product_findOne, Cart_save,
    ret, throw.
  simpl. rewrite Hcart.
  destruct (find _ (products s)); [|reflexivity].
  destruct (_ =? -1); reflexivity.
Qed.

Lemma deleteProductFromCart_with_cart (user : User.t) (productId : string)
    (s : Db) (cart : Cart.t) :
  carts s !! User.email user = Some cart ->
  deleteProductFromCart user productId s
  = let productIndex := findProductIndex productId (Cart.cartItems cart) in
    if productIndex =? -1 then
      (Throw (ApiError 400 "Product not in cart"), s)
    else
      let cart' :=
        Cart.mk (Cart.email cart)
                (splice1 (Cart.cartItems cart) productIndex)
                (Cart.paymentOption cart) in
      (Return cart',
       mkDb (<[Cart.email cart := cart']> (carts s)) (products s) (users s)).
Proof.
  intros Hcart.
  unfold deleteProductFromCart, bind, Cart_findOne, Cart_save, ret, throw.
  simpl. rewrite Hcart.
  destruct (_ =? -1); reflexivity.
Qed.

(** C2, amended: for a user without a cart, [getCartByUser] and [checkout]
    throw with status 404 and write nothing; [updateProductInCart] and
    [deleteProductFromCart] throw with status 400 and write nothing;
    [addProductToCart] does not throw with status 404: it leaves a cart
    stored for the user. *)
Theorem no_cart_outcomes (config : Config) (user : User.t)
    (productId : string) (quantity : float) (s : Db) :
  carts s !! User.email user = None ->
  getCartByUser user s
  = (Throw (ApiError 404 "User does not have a cart"), s)
  /\ checkout user s
     = (Throw (ApiError 404 "User does not have a cart"), s)
  /\ updateProductInCart user productId quantity s
     = (Throw (ApiError 400
                 "User does not have a cart. Use POST to create cart and add a product"),
        s)
  /\ deleteProductFromCart user productId s
     = (Throw (ApiError 400 "User does not have a cart"), s)
  /\ ~ throwsStatus (addProductToCart config user productId quantity s) 404
  /\ is_Some (carts (stateAfter
                       (addProductToCart config user productId quantity s))
              !! User.email user).
Proof.
  intros Hnone.
  split; [|split; [|split; [|split]]].
  - unfold getCartByUser, bind, Cart_findOne. simpl. by rewrite Hnone.
  - unfold checkout, bind, Cart_findOne. simpl. by rewrite Hnone.
  - unfold updateProductInCart, bind, Cart_findOne. simpl. by rewrite Hnone.
  - unfold deleteProductFromCart, bind, Cart_findOne. simpl. by rewrite Hnone.
  - rewrite (addProductToCart_no_cart _ _ _ _ _ Hnone).
    unfold throwsStatus, stateAfter.
    destruct (find _ (products s)); simpl.
    + split; [intros [m Hm]; discriminate|].
      rewrite lookup_insert_eq. by eexists.
    + split; [intros [m Hm]; discriminate|].
      rewrite lookup_insert_eq. by eexists.
Qed.

Lemma no_cart_outcomes_witness :
  getCartByUser Sample.alice Sample.noCarts
  = (Throw (ApiError 404 "User does not have a cart"), Sample.noCarts)
  /\ checkout Sample.alice Sample.noCarts
     = (Throw (ApiError 404 "User does not have a cart"), Sample.noCarts).
Proof.
  destruct (no_cart_outcomes Sample.cfg Sample.alice "tv" 1 Sample.noCarts)
    as (Hget & Hcheckout & _); [reflexivity|].
  split; [exact Hget | exact Hcheckout].
Defined.

(** ** addProductToCart *)

(** C3: for a user with a cart and a product identifier already among the
    cart's items, [addProductToCart] throws with status 400 and writes
    nothing: the stored cart, and so its item list, is as before. *)
Theorem addProductToCart_duplicate (config : Config) (user : User.t)
    (productId : string) (quantity : float) (s : Db) (cart : Cart.t) :
  carts s !! User.email user = Some cart ->
  productId ∈ itemIds (Cart.cartItems cart) ->
  addProductToCart config user productId quantity s
  = (Throw (ApiError 400
              "Product already in cart. use the cart sidebar to update or remove product from cart"),
     s).
Proof.
  intros Hcart Hin.
  rewrite (addProductToCart_with_cart _ _ _ _ _ _ Hcart).
  destruct (Z.eqb_spec (findProductIndex productId (Cart.cartItems cart)) (-1))
    as [Hidx|Hidx]; [|reflexivity].
  apply findProductIndex_sentinel in Hidx. contradiction.
Qed.

Lemma addProductToCart_duplicate_witness :
  addProductToCart Sample.cfg Sample.alice "pen" 4 Sample.db
  = (Throw (ApiError 400
              "Product already in cart. use the cart sidebar to update or remove product from cart"),
     Sample.db).
Proof.
  apply (addProductToCart_duplicate Sample.cfg Sample.alice "pen" 4
           Sample.db Sample.aliceCart).
  - reflexivity.
  - vm_compute. apply list_elem_of_further, list_elem_of_here.
Defined.

Lemma find_absent (productId : string) (s : Db) :
  absentFromProducts productId s ->
  find (fun p => String.eqb (Product._id p) productId) (products s) = None.
Proof.
  unfold absentFromProducts.
  induction 1 as [|p rest Hp _ IH]; simpl; [done|].
  rewrite (proj2 (String.eqb_neq _ _) Hp). exact IH.
Qed.

(** C9: for a user without a cart and a product identifier that no document
    of the products collection has, [addProductToCart] throws the 400
    product-not-found error from a state in which the user's empty cart has
    already been created and stored: the failed call has changed the store. *)
Theorem addProductToCart_failure_keeps_cart (config : Config) (user : User.t)
    (productId : string) (quantity : float) (s : Db) :
  carts s !! User.email user = None ->
  absentFromProducts productId s ->
  let created :=
    Cart.mk (User.email user) [] (default_payment_option config) in
  let s' := stateAfter (addProductToCart config user productId quantity s) in
  addProductToCart config user productId quantity s
  = (Throw (ApiError 400 "Product doesn't exist in database"),
     mkDb (<[User.email user := created]> (carts s)) (products s) (users s))
  /\ carts s' !! User.email user = Some created
  /\ s' ≠ s.
Proof.
  intros Hnone Habsent. simpl.
  rewrite (addProductToCart_no_cart _ _ _ _ _ Hnone).
  rewrite (find_absent _ _ Habsent). unfold stateAfter. simpl.
  split; [reflexivity|]. split; [apply lookup_insert_eq|].
  intros Heq. rewrite <- Heq in Hnone. simpl in Hnone.
  rewrite lookup_insert_eq in Hnone. discriminate.
Qed.

Lemma addProductToCart_failure_keeps_cart_witness :
  addProductToCart Sample.cfg Sample.alice "radio" 1 Sample.noCarts
  = (Throw (ApiError 400 "Product doesn't exist in database"),
     mkDb (<["alice@qkart" := Cart.mk "alice@qkart" [] "PAYMENT_OPTION_DEFAULT"]> ∅)
          [Sample.tv; Sample.pen] ∅)
  /\ carts (stateAfter
              (addProductToCart Sample.cfg Sample.alice "radio" 1 Sample.noCarts))
     !! "alice@qkart"
     = Some (Cart.mk "alice@qkart" [] "PAYMENT_OPTION_DEFAULT")
  /\ stateAfter (addProductToCart Sample.cfg Sample.alice "radio" 1 Sample.noCarts)
     ≠ Sample.noCarts.
Proof.
  apply (addProductToCart_failure_keeps_cart Sample.cfg Sample.alice "radio" 1
           Sample.noCarts).
  - reflexivity.
  - repeat constructor; discriminate.
Defined.

(** ** updateProductInCart *)

(** C7, as the claim has it, fails: to hold the product in the cart is not
    enough. alice's cart holds the tv, which the products collection of
    [staleDb] does not have: [updateProductInCart] throws and the quantity
    of the tv stays 2. *)
Lemma updateProductInCart_stale_product :
  carts Sample.staleDb !! User.email Sample.alice = Some Sample.aliceCart
  /\ Cart.cartItems Sample.aliceCart
     = [CartItem.mk Sample.tv 2; CartItem.mk Sample.pen 1]
  /\ "tv" ∈ itemIds (Cart.cartItems Sample.aliceCart)
  /\ products Sample.staleDb = [Sample.pen]
  /\ updateProductInCart Sample.alice "tv" 5 Sample.staleDb
     = (Throw (ApiError 400 "Product doesn't exist in database"),
        Sample.staleDb).
Proof.
  repeat split. vm_compute. apply list_elem_of_here.
Qed.

(** C7, amended: for a user whose cart holds the product, a product that the
    products collection has too, [updateProductInCart] returns and touches
    nothing but the quantity of the item the scan matched (the last one with
    that identifier, the only one when identifiers are distinct), set to the
    new value in place: the items before and after it, their order, the
    item's product, and the cart's email and payment option are as they
    were. No other cart, no product and no user is written. *)
Theorem updateProductInCart_frame (user : User.t) (productId : string)
    (quantity : float) (s : Db) (cart : Cart.t) (product : Product.t) :
  carts s !! User.email user = Some cart ->
  Cart.email cart = User.email user ->
  productId ∈ itemIds (Cart.cartItems cart) ->
  Product_findOne productId s = (Return (Some product), s) ->
  exists before item after,
    Cart.cartItems cart = before ++ item :: after
    /\ itemId item = productId
    /\ (productId ∉ itemIds after)
    /\ updateProductInCart user productId quantity s
       = (Return (Cart.mk (Cart.email cart)
                    (before ++ CartItem.mk (CartItem.product item) quantity
                       :: after)
                    (Cart.paymentOption cart)),
          mkDb (<[User.email user :=
                    Cart.mk (Cart.email cart)
                      (before ++ CartItem.mk (CartItem.product item) quantity
                         :: after)
                      (Cart.paymentOption cart)]> (carts s))
               (products s) (users s)).
Proof.
  intros Hcart Hemail Hin Hfind.
  unfold Product_findOne in Hfind. injection Hfind as Hfind.
  destruct (last_occurrence _ _ Hin) as (before & item & after & Hsplit & Hid & Hafter).
  exists before, item, after. repeat split; try done.
  rewrite (updateProductInCart_with_cart _ _ _ _ _ Hcart).
  rewrite Hfind. cbv zeta.
  rewrite Hsplit, findProductIndex_last by done.
  replace (Z.of_nat (length before) =? -1) with false
    by (symmetry; apply Z.eqb_neq; lia).
  rewrite setQuantity_last, Hemail. reflexivity.
Qed.

Lemma updateProductInCart_frame_witness :
  exists before item after,
    Cart.cartItems Sample.aliceCart = before ++ item :: after
    /\ itemId item = "tv"
    /\ ("tv" ∉ itemIds after)
    /\ updateProductInCart Sample.alice "tv" 5 Sample.db
       = (Return (Cart.mk "alice@qkart"
                    (before ++ CartItem.mk (CartItem.product item) 5 :: after)
                    "PAYMENT_OPTION_DEFAULT"),
          mkDb (<["alice@qkart" :=
                    Cart.mk "alice@qkart"
                      (before ++ CartItem.mk (CartItem.product item) 5 :: after)
                      "PAYMENT_OPTION_DEFAULT"]> (carts Sample.db))
               (products Sample.db) (users Sample.db)).
Proof.
  apply (updateProductInCart_frame Sample.alice "tv" 5 Sample.db
           Sample.aliceCart Sample.tv).
  - reflexivity.
  - reflexivity.
  - vm_compute. apply list_elem_of_here.
  - reflexivity.
Defined.

(** ** deleteProductFromCart *)

(** C8: for a user whose cart holds the product exactly once,
    [deleteProductFromCart] returns and stores the cart without that one
    item, the items before it and after it in their order; when no item of
    the cart has the product, it throws with status 400 and writes nothing. *)
Theorem deleteProductFromCart_removes_one (user : User.t) (productId : string)
    (s : Db) (cart : Cart.t) :
  carts s !! User.email user = Some cart ->
  Cart.email cart = User.email user ->
  (forall before item after,
     Cart.cartItems cart = before ++ item :: after ->
     itemId item = productId ->
     productId ∉ itemIds before ->
     productId ∉ itemIds after ->
     let cart' :=
       Cart.mk (Cart.email cart) (before ++ after) (Cart.paymentOption cart) in
     deleteProductFromCart user productId s
     = (Return cart',
        mkDb (<[User.email user := cart']> (carts s)) (products s) (users s)))
  /\ (productId ∉ itemIds (Cart.cartItems cart) ->
        deleteProductFromCart user productId s
        = (Throw (ApiError 400 "Product not in cart"), s)).
Proof.
  intros Hcart Hemail.
  rewrite (deleteProductFromCart_with_cart _ _ _ _ Hcart). simpl.
  split.
  - intros before item after Hsplit Hid _ Hafter.
    rewrite Hsplit, findProductIndex_last by done.
    replace (Z.of_nat (length before) =? -1) with false
      by (symmetry; apply Z.eqb_neq; lia).
    rewrite splice1_middle, Hemail. reflexivity.
  - intros Hnot. rewrite findProductIndex_absent by done. reflexivity.
Qed.

Lemma deleteProductFromCart_removes_one_witness :
  deleteProductFromCart Sample.alice "tv" Sample.db
  = (Return (Cart.mk "alice@qkart" [CartItem.mk Sample.pen 1]
                     "PAYMENT_OPTION_DEFAULT"),
     mkDb (<["alice@qkart" :=
               Cart.mk "alice@qkart" [CartItem.mk Sample.pen 1]
                       "PAYMENT_OPTION_DEFAULT"]> (carts Sample.db))
          (products Sample.db) (users Sample.db))
  /\ deleteProductFromCart Sample.alice "radio" Sample.db
     = (Throw (ApiError 400 "Product not in cart"), Sample.db).
Proof.
  split.
  - apply (proj1 (deleteProductFromCart_removes_one Sample.alice "tv" Sample.db
                    Sample.aliceCart eq_refl eq_refl)
             [] (CartItem.mk Sample.tv 2) [CartItem.mk Sample.pen 1]).
    + reflexivity.
    + reflexivity.
    + apply not_elem_of_nil.
    + vm_compute. intros Hin. apply list_elem_of_singleton in Hin. discriminate.
  - apply (proj2 (deleteProductFromCart_removes_one Sample.alice "radio" Sample.db
                    Sample.aliceCart eq_refl eq_refl)).
    vm_compute. intros Hin.
    apply elem_of_cons in Hin as [Hin|Hin]; [discriminate|].
    apply list_elem_of_singleton in Hin. discriminate.
Defined.

(** ** Distinct product identifiers *)

Lemma find_matches (productId : string) (ps : list Product.t) (p : Product.t) :
  find (fun p => String.eqb (Product._id p) productId) ps = Some p ->
  Product._id p = productId.
Proof.
  intros Hfind. apply find_some in Hfind as [_ Heqb].
  by apply String.eqb_eq.
Qed.

(** Appending an item whose identifier the scan did not find keeps the
    identifiers distinct. *)
Lemma distinct_append (items : list CartItem.t) (product : Product.t)
    (quantity : float) :
  NoDup (itemIds items) ->
  findProductIndex (Product._id product) items = -1 ->
  NoDup (itemIds (items ++ [CartItem.mk product quantity])).
Proof.
  intros Hnd Hidx. apply findProductIndex_sentinel in Hidx.
  rewrite itemIds_app. apply NoDup_app. split; [exact Hnd|]. split.
  - intros x Hx Hsingle. apply list_elem_of_singleton in Hsingle.
    subst x. contradiction.
  - apply NoDup_singleton.
Qed.

(** [checkout] either writes nothing, or stores the user's cart emptied. *)
Lemma checkout_state (user : User.t) (s : Db) :
  stateAfter (checkout user s) = s
  \/ exists cart user',
       carts s !! User.email user = Some cart
       /\ stateAfter (checkout user s)
          = mkDb (<[Cart.email cart := Cart.mk (Cart.email cart) [] (Cart.paymentOption cart)]>
                    (carts s))
                 (products s)
                 (<[User.email user := user']> (users s)).
Proof.
  unfold stateAfter, checkout, bind, Cart_findOne, throw. simpl.
  destruct (carts s !! User.email user) as [cart|] eqn:Hcart; [|by left].
  destruct (_ =? 0); [by left|].
  destruct (negb _); [by left|].
  destruct (PrimFloat.ltb _ _); [by left|].
  right. eexists cart, _. split; [reflexivity|]. reflexivity.
Qed.

(** Storing a cart with distinct identifiers, under any key, keeps the
    identifiers of the cart found under [email] distinct. *)
Lemma distinctAt_save (email key : string) (cart : Cart.t) (s : Db) :
  distinctAt email s ->
  distinctIds cart ->
  distinctAt email
    (mkDb (<[key := cart]> (carts s)) (products s) (users s)).
Proof.
  intros Hat Hcart found. simpl. rewrite lookup_insert.
  case_decide; [|apply Hat]. by intros [= <-].
Qed.

Section Preservation.
Variables (config : Config) (user : User.t) (productId : string)
          (quantity : float) (s : Db) (email : string).
Hypothesis Huser : distinctAt (User.email user) s.
Hypothesis Hemail : distinctAt email s.

Lemma addProductToCart_distinctAt :
  distinctAt email
    (stateAfter (addProductToCart config user productId quantity s)).
Proof.
  unfold stateAfter.
  destruct (carts s !! User.email user) as [cart|] eqn:Hcart.
  - rewrite (addProductToCart_with_cart _ _ _ _ _ _ Hcart).
    destruct (Z.eqb_spec (findProductIndex productId (Cart.cartItems cart)) (-1))
      as [Hidx|Hidx]; [|exact Hemail].
    destruct (find _ (products s)) as [p|] eqn:Hfind; [|exact Hemail].
    cbv zeta. simpl snd. apply distinctAt_save; [exact Hemail|].
    unfold distinctIds. simpl. apply distinct_append.
    + exact (Huser _ Hcart).
    + by rewrite (find_matches _ _ _ Hfind).
  - rewrite (addProductToCart_no_cart _ _ _ _ _ Hcart).
    assert (Hcreated :
      distinctAt email
        (mkDb (<[User.email user :=
                   Cart.mk (User.email user) [] (default_payment_option config)]>
                 (carts s)) (products s) (users s))).
    { apply distinctAt_save; [exact Hemail|]. apply NoDup_nil_2. }
    destruct (find _ (products s)) as [p|]; cbv zeta; simpl snd;
      [|exact Hcreated].
    apply (distinctAt_save _ _ _ _ Hcreated). apply NoDup_singleton.
Qed.

Lemma updateProductInCart_distinctAt :
  distinctAt email
    (stateAfter (updateProductInCart user productId quantity s)).
Proof.
  unfold stateAfter.
  destruct (carts s !! User.email user) as [cart|] eqn:Hcart.
  - rewrite (updateProductInCart_with_cart _ _ _ _ _ Hcart).
    destruct (find _ (products s)); [|exact Hemail]. cbv zeta.
    destruct (_ =? -1); [exact Hemail|]. simpl snd.
    apply distinctAt_save; [exact Hemail|].
    unfold distinctIds. simpl. rewrite itemIds_setQuantity.
    exact (Huser _ Hcart).
  - unfold updateProductInCart, bind, Cart_findOne. simpl.
    rewrite Hcart. exact Hemail.
Qed.

Lemma deleteProductFromCart_distinctAt :
  distinctAt email (stateAfter (deleteProductFromCart user productId s)).
Proof.
  unfold stateAfter.
  destruct (carts s !! User.email user) as [cart|] eqn:Hcart.
  - rewrite (deleteProductFromCart_with_cart _ _ _ _ Hcart). cbv zeta.
    destruct (_ =? -1); [exact Hemail|]. simpl snd.
    apply distinctAt_save; [exact Hemail|].
    unfold distinctIds. simpl. apply distinct_splice1.
    exact (Huser _ Hcart).
  - unfold deleteProductFromCart, bind, Cart_findOne. simpl.
    rewrite Hcart. exact Hemail.
Qed.

Lemma checkout_distinctAt :
  distinctAt email (stateAfter (checkout user s)).
Proof.
  destruct (checkout_state user s) as [Hsame|(cart & user' & Hcart & Hstate)].
  - rewrite Hsame. exact Hemail.
  - rewrite Hstate. intros found. simpl. rewrite lookup_insert.
    case_decide; [|apply Hemail]. intros [= <-]. apply NoDup_nil_2.
Qed.
End Preservation.

(** When [addProductToCart] returns for a user who had a cart, the scan had
    found no item with the identifier, and the one item appended carries
    it. *)
Lemma addProductToCart_scans_first (config : Config) (user : User.t)
    (productId : string) (quantity : float) (s : Db) (cart cart' : Cart.t) :
  carts s !! User.email user = Some cart ->
  fst (addProductToCart config user productId quantity s) = Return cart' ->
  (productId ∉ itemIds (Cart.cartItems cart))
  /\ exists product,
       Product._id product = productId
       /\ Cart.cartItems cart'
          = Cart.cartItems cart ++ [CartItem.mk product quantity].
Proof.
  intros Hcart.
  rewrite (addProductToCart_with_cart _ _ _ _ _ _ Hcart).
  destruct (Z.eqb_spec (findProductIndex productId (Cart.cartItems cart)) (-1))
    as [Hidx|Hidx]; [|discriminate].
  destruct (find _ (products s)) as [p|] eqn:Hfind; [|discriminate].
  simpl. intros [= <-]. split.
  - by apply findProductIndex_sentinel.
  - exists p. split; [by apply (find_matches _ _ _ Hfind)|reflexivity].
Qed.

(** The same for the whole collection: the four operations keep the
    identifiers of every stored cart distinct. *)
Lemma cartsDistinct_preserved (config : Config) (user : User.t)
    (productId : string) (quantity : float) (s : Db) :
  cartsDistinct s ->
  cartsDistinct (stateAfter (addProductToCart config user productId quantity s))
  /\ cartsDistinct (stateAfter (updateProductInCart user productId quantity s))
  /\ cartsDistinct (stateAfter (deleteProductFromCart user productId s))
  /\ cartsDistinct (stateAfter (checkout user s)).
Proof.
  intros Hall. repeat split; intros email.
  - by apply addProductToCart_distinctAt.
  - by apply updateProductInCart_distinctAt.
  - by apply deleteProductFromCart_distinctAt.
  - by apply checkout_distinctAt.
Qed.

(** C4: if the product identifiers of the user's cart are pairwise distinct
    before [addProductToCart], [updateProductInCart],
    [deleteProductFromCart] or [checkout], those of the cart stored for the
    user after the call are pairwise distinct, whether the call returns or
    throws; and [addProductToCart] appends only after its scan has found no
    item with the identifier. *)
Theorem distinct_ids_preserved (config : Config) (user : User.t)
    (productId : string) (quantity : float) (s : Db) :
  distinctAt (User.email user) s ->
  distinctAt (User.email user)
    (stateAfter (addProductToCart config user productId quantity s))
  /\ distinctAt (User.email user)
       (stateAfter (updateProductInCart user productId quantity s))
  /\ distinctAt (User.email user)
       (stateAfter (deleteProductFromCart user productId s))
  /\ distinctAt (User.email user) (stateAfter (checkout user s))
  /\ (forall cart cart',
        carts s !! User.email user = Some cart ->
        fst (addProductToCart config user productId quantity s) = Return cart' ->
        (productId ∉ itemIds (Cart.cartItems cart))
        /\ exists product,
             Product._id product = productId
             /\ Cart.cartItems cart'
                = Cart.cartItems cart ++ [CartItem.mk product quantity]).
Proof.
  intros Huser.
  split; [|split; [|split; [|split]]].
  - by apply addProductToCart_distinctAt.
  - by apply updateProductInCart_distinctAt.
  - by apply deleteProductFromCart_distinctAt.
  - by apply checkout_distinctAt.
  - intros cart cart'. apply addProductToCart_scans_first.
Qed.

Lemma distinct_ids_preserved_witness :
  distinctAt "alice@qkart"
    (stateAfter (addProductToCart Sample.cfg Sample.alice "radio" 1 Sample.db))
  /\ distinctAt "alice@qkart"
       (stateAfter (updateProductInCart Sample.alice "radio" 1 Sample.db))
  /\ distinctAt "alice@qkart"
       (stateAfter (deleteProductFromCart Sample.alice "radio" Sample.db))
  /\ distinctAt "alice@qkart" (stateAfter (checkout Sample.alice Sample.db)).
Proof.
  destruct (distinct_ids_preserved Sample.cfg Sample.alice "radio" 1 Sample.db)
    as (Hadd & Hupdate & Hdelete & Hcheckout & _).
  - intros cart Hcart. vm_compute in Hcart. injection Hcart as <-.
    unfold distinctIds. simpl.
    apply NoDup_cons. split; [|apply NoDup_singleton].
    intros Hin. apply list_elem_of_singleton in Hin. discriminate.
  - repeat split; assumption.
Defined.

(** * Further properties of the service *)

(** ** The scan, again *)

(** X1: the scan leaves [productIndex] at [-1] exactly when no item has the
    identifier, and otherwise at the position of the last item that has it:
    an index inside the list, so [cartItems[productIndex]] and
    [splice(productIndex, 1)] always hit an item. *)
Theorem findProductIndex_last_match (productId : string)
    (items : list CartItem.t) :
  (findProductIndex productId items = -1 /\ productId ∉ itemIds items)
  \/ (exists before item after,
        items = before ++ item :: after
        /\ itemId item = productId
        /\ (productId ∉ itemIds after)
        /\ findProductIndex productId items = Z.of_nat (length before)
        /\ 0 <= findProductIndex productId items < Z.of_nat (length items)).
Proof.
  destruct (decide (productId ∈ itemIds items)) as [Hin|Hnot].
  - right.
    destruct (last_occurrence _ _ Hin) as (before & item & after & -> & Hid & Ha).
    exists before, item, after. repeat split; try done.
    + by apply findProductIndex_last.
    + rewrite findProductIndex_last by done. lia.
    + rewrite findProductIndex_last by done.
      rewrite length_app. simpl. lia.
  - left. split; [by apply findProductIndex_absent|done].
Qed.

(** The scan looks at nothing but the identifiers. *)
Lemma scanFrom_ids (productId : string) (items1 items2 : list CartItem.t) :
  itemIds items1 = itemIds items2 ->
  forall i productIndex,
    scanFrom productId items1 i productIndex
    = scanFrom productId items2 i productIndex.
Proof.
  revert items2.
  induction items1 as [|x rest IH]; intros [|y rest2] Hids i productIndex;
    try discriminate; [reflexivity|].
  simpl in *. injection Hids as Hxy Hrest.
  unfold itemId in Hxy. rewrite Hxy. by apply IH.
Qed.

Lemma findProductIndex_setQuantity (productId : string)
    (items : list CartItem.t) (productIndex : Z) (quantity : float) :
  findProductIndex productId (setQuantity items productIndex quantity)
  = findProductIndex productId items.
Proof. apply scanFrom_ids, itemIds_setQuantity. Qed.

Lemma setQuantity_twice (items : list CartItem.t) (productIndex : Z)
    (q1 q2 : float) :
  setQuantity (setQuantity items productIndex q1) productIndex q2
  = setQuantity items productIndex q2.
Proof.
  unfold setQuantity. generalize (Z.to_nat productIndex) as n.
  induction items as [|x rest IH]; intros [|n]; simpl; try done.
  f_equal. apply IH.
Qed.

(** ** getCartByUser *)

(** X2: [getCartByUser] returns a cart exactly when that cart is the one
    stored for the user's email, and it never writes. *)
Theorem getCartByUser_reads (user : User.t) (s : Db) :
  stateAfter (getCartByUser user s) = s
  /\ forall cart,
       fst (getCartByUser user s) = Return cart
       <-> carts s !! User.email user = Some cart.
Proof.
  unfold stateAfter, getCartByUser, bind, Cart_findOne, ret, throw. simpl.
  destruct (carts s !! User.email user) as [found|]; simpl.
  - split; [reflexivity|]. intros cart. split; congruence.
  - split; [reflexivity|]. intros cart. split; discriminate.
Qed.

(** ** addProductToCart: the paths that return *)

(** X3: for a user with a cart that does not hold the product, and a product
    that the products collection has, [addProductToCart] returns the cart
    with one item appended at the end (the product found, the quantity
    given), the earlier items, the email and the payment option as they
    were, and stores it. *)
Theorem addProductToCart_appends (config : Config) (user : User.t)
    (productId : string) (quantity : float) (s : Db) (cart : Cart.t)
    (product : Product.t) :
  carts s !! User.email user = Some cart ->
  Cart.email cart = User.email user ->
  productId ∉ itemIds (Cart.cartItems cart) ->
  Product_findOne productId s = (Return (Some product), s) ->
  addProductToCart config user productId quantity s
  = (Return (Cart.mk (Cart.email cart)
               (Cart.cartItems cart ++ [CartItem.mk product quantity])
               (Cart.paymentOption cart)),
     mkDb (<[User.email user :=
               Cart.mk (Cart.email cart)
                 (Cart.cartItems cart ++ [CartItem.mk product quantity])
                 (Cart.paymentOption cart)]> (carts s))
          (products s) (users s)).
Proof.
  intros Hcart Hemail Hnot Hfind.
  unfold Product_findOne in Hfind. injection Hfind as Hfind.
  rewrite (addProductToCart_with_cart _ _ _ _ _ _ Hcart).
  rewrite findProductIndex_absent by done. simpl.
  rewrite Hfind, Hemail. reflexivity.
Qed.

Lemma addProductToCart_appends_witness :
  addProductToCart Sample.cfg Sample.carol "pen" 2 Sample.db
  = (Return (Cart.mk "carol@qkart" [CartItem.mk Sample.pen 2]
                     "PAYMENT_OPTION_DEFAULT"),
     mkDb (<["carol@qkart" :=
               Cart.mk "carol@qkart" [CartItem.mk Sample.pen 2]
                       "PAYMENT_OPTION_DEFAULT"]> (carts Sample.db))
          (products Sample.db) (users Sample.db)).
Proof.
  apply (addProductToCart_appends Sample.cfg Sample.carol "pen" 2 Sample.db
           Sample.carolCart Sample.pen).
  - reflexivity.
  - reflexivity.
  - apply not_elem_of_nil.
  - reflexivity.
Defined.

(** X4: for a user without a cart and a product that the products
    collection has, [addProductToCart] returns a new cart with the user's
    email, the default payment option of the configuration and the one item,
    and stores it under the user's email. *)
Theorem addProductToCart_creates_cart (config : Config) (user : User.t)
    (productId : string) (quantity : float) (s : Db) (product : Product.t) :
  carts s !! User.email user = None ->
  Product_findOne productId s = (Return (Some product), s) ->
  addProductToCart config user productId quantity s
  = (Return (Cart.mk (User.email user) [CartItem.mk product quantity]
               (default_payment_option config)),
     mkDb (<[User.email user :=
               Cart.mk (User.email user) [CartItem.mk product quantity]
                 (default_payment_option config)]> (carts s))
          (products s) (users s)).
Proof.
  intros Hnone Hfind.
  unfold Product_findOne in Hfind. injection Hfind as Hfind.
  rewrite (addProductToCart_no_cart _ _ _ _ _ Hnone).
  rewrite Hfind. simpl. by rewrite insert_insert_eq.
Qed.

Lemma addProductToCart_creates_cart_witness :
  addProductToCart Sample.cfg Sample.alice "pen" 2 Sample.noCarts
  = (Return (Cart.mk "alice@qkart" [CartItem.mk Sample.pen 2]
                     "PAYMENT_OPTION_DEFAULT"),
     mkDb (<["alice@qkart" :=
               Cart.mk "alice@qkart" [CartItem.mk Sample.pen 2]
                       "PAYMENT_OPTION_DEFAULT"]> ∅)
          [Sample.tv; Sample.pen] ∅).
Proof.
  apply (addProductToCart_creates_cart Sample.cfg Sample.alice "pen" 2
           Sample.noCarts Sample.pen); reflexivity.
Defined.

(** ** What the service throws *)

Ltac thrown_status :=
  let e := fresh "e" in
  let He := fresh "He" in
  intros e He; simpl in He;
  first
    [ discriminate He
    | injection He as <-; do 2 eexists; split; [reflexivity|];
      repeat first [apply list_elem_of_here | apply list_elem_of_further] ].

(** X5: whatever the store, the arguments and the path taken, the service
    throws nothing but an [ApiError] with status 404 ([getCartByUser]), 400
    ([addProductToCart], [updateProductInCart], [deleteProductFromCart]) or
    400 or 404 ([checkout]). In particular the two 500 branches of
    [addProductToCart] are never taken when the calls run one after the
    other, and no driver error of [Cart.create] gets out. *)
Theorem service_throws_only (config : Config) (user : User.t)
    (productId : string) (quantity : float) (s : Db) :
  throwsOnly (getCartByUser user s) [404]
  /\ throwsOnly (addProductToCart config user productId quantity s) [400]
  /\ throwsOnly (updateProductInCart user productId quantity s) [400]
  /\ throwsOnly (deleteProductFromCart user productId s) [400]
  /\ throwsOnly (checkout user s) [400; 404].
Proof.
  unfold throwsOnly.
  destruct (carts s !! User.email user) as [cart|] eqn:Hcart.
  - rewrite (addProductToCart_with_cart _ _ _ _ _ _ Hcart),
      (updateProductInCart_with_cart _ _ _ _ _ Hcart),
      (deleteProductFromCart_with_cart _ _ _ _ Hcart).
    unfold getCartByUser, checkout, bind, Cart_findOne, throw, ret. simpl.
    rewrite Hcart. cbv zeta.
    split; [thrown_status|]. split; [|split; [|split]].
    + destruct (_ =? -1); [|thrown_status].
      destruct (find _ (products s)); thrown_status.
    + destruct (find _ (products s)); [|thrown_status].
      destruct (_ =? -1); thrown_status.
    + destruct (_ =? -1); thrown_status.
    + destruct (_ =? 0); [thrown_status|].
      destruct (negb _); [thrown_status|].
      destruct (PrimFloat.ltb _ _); thrown_status.
  - rewrite (addProductToCart_no_cart _ _ _ _ _ Hcart).
    unfold getCartByUser, updateProductInCart, deleteProductFromCart,
      checkout, bind, Cart_findOne, throw. simpl.
    rewrite Hcart.
    split; [thrown_status|]. split; [|split; [|split]]; try thrown_status.
    destruct (find _ (products s)); thrown_status.
Qed.

(** X6: a call of [getCartByUser], [updateProductInCart] or
    [deleteProductFromCart] that does not return has written nothing: every
    throw of theirs comes before the one [cart.save()], the last statement
    before the return. *)
Theorem failed_calls_write_nothing (user : User.t) (productId : string)
    (quantity : float) (s : Db) :
  returnedOrUntouched (getCartByUser user s) s
  /\ returnedOrUntouched (updateProductInCart user productId quantity s) s
  /\ returnedOrUntouched (deleteProductFromCart user productId s) s.
Proof.
  unfold returnedOrUntouched.
  destruct (carts s !! User.email user) as [cart|] eqn:Hcart.
  - rewrite (updateProductInCart_with_cart _ _ _ _ _ Hcart),
      (deleteProductFromCart_with_cart _ _ _ _ Hcart).
    unfold getCartByUser, bind, Cart_findOne, throw, ret. simpl.
    rewrite Hcart. cbv zeta.
    split; [left; by eexists|]. split.
    + destruct (find _ (products s)); [|by right].
      destruct (_ =? -1); [by right|left; by eexists].
    + destruct (_ =? -1); [by right|left; by eexists].
  - unfold getCartByUser, updateProductInCart, deleteProductFromCart,
      bind, Cart_findOne, throw. simpl.
    rewrite Hcart. repeat split; by right.
Qed.

(** X21: as long as its two saves succeed, a [checkout] that does not return
    has written nothing: the four [ApiError]s are thrown before [user.save()]
    and [cart.save()]. (The saves are not in a transaction: a [cart.save()]
    that the database rejects would throw after the debit is stored, which
    is outside the model.) *)
Theorem checkout_throws_before_saving (user : User.t) (s : Db) :
  returnedOrUntouched (checkout user s) s.
Proof.
  unfold returnedOrUntouched, checkout, bind, Cart_findOne, throw. simpl.
  destruct (carts s !! User.email user) as [cart|]; [|by right].
  destruct (_ =? 0); [by right|].
  destruct (negb _); [by right|].
  destruct (PrimFloat.ltb _ _); [by right|left; by eexists].
Qed.

(** X7: for a user who already has a cart, [addProductToCart] too writes
    nothing unless it returns (the write before a throw happens only when
    the cart has to be created). *)
Theorem addProductToCart_with_cart_atomic (config : Config) (user : User.t)
    (productId : string) (quantity : float) (s : Db) :
  is_Some (carts s !! User.email user) ->
  returnedOrUntouched (addProductToCart config user productId quantity s) s.
Proof.
  intros [cart Hcart]. unfold returnedOrUntouched.
  rewrite (addProductToCart_with_cart _ _ _ _ _ _ Hcart).
  destruct (_ =? -1); [|by right].
  destruct (find _ (products s)); [left; by eexists|by right].
Qed.

Lemma addProductToCart_with_cart_atomic_witness :
  returnedOrUntouched
    (addProductToCart Sample.cfg Sample.alice "radio" 1 Sample.db) Sample.db.
Proof.
  apply (addProductToCart_with_cart_atomic Sample.cfg Sample.alice "radio" 1
           Sample.db).
  by eexists.
Defined.

(** ** Calls in sequence *)

(** What a returning [addProductToCart] has done, whether the cart was there
    or had to be created. *)
Lemma addProductToCart_returned (config : Config) (user : User.t)
    (productId : string) (quantity : float) (s s' : Db) (cart' : Cart.t) :
  ownCart user s ->
  addProductToCart config user productId quantity s = (Return cart', s') ->
  exists product,
    Product._id product = productId
    /\ Cart.email cart' = User.email user
    /\ Cart.cartItems cart'
       = from_option Cart.cartItems [] (carts s !! User.email user)
         ++ [CartItem.mk product quantity]
    /\ s' = mkDb (<[User.email user := cart']> (carts s)) (products s) (users s).
Proof.
  intros Hown.
  destruct (carts s !! User.email user) as [cart|] eqn:Hcart.
  - rewrite (addProductToCart_with_cart _ _ _ _ _ _ Hcart).
    destruct (_ =? -1); [|discriminate].
    destruct (find _ (products s)) as [p|] eqn:Hfind; [|discriminate].
    cbv zeta. rewrite (Hown _ Hcart). intros [= <- <-].
    exists p. split; [by apply (find_matches _ _ _ Hfind)|]. done.
  - rewrite (addProductToCart_no_cart _ _ _ _ _ Hcart).
    destruct (find _ (products s)) as [p|] eqn:Hfind; [|discriminate].
    cbv zeta. simpl. rewrite insert_insert_eq. intros [= <- <-].
    exists p. split; [by apply (find_matches _ _ _ Hfind)|]. done.
Qed.

(** X8: after [addProductToCart] has returned a cart, [getCartByUser] for the
    same user returns that cart. *)
Theorem add_then_get (config : Config) (user : User.t) (productId : string)
    (quantity : float) (s s' : Db) (cart' : Cart.t) :
  ownCart user s ->
  addProductToCart config user productId quantity s = (Return cart', s') ->
  getCartByUser user s' = (Return cart', s').
Proof.
  intros Hown Hadd.
  destruct (addProductToCart_returned _ _ _ _ _ _ _ Hown Hadd)
    as (p & _ & _ & _ & ->).
  unfold getCartByUser, bind, Cart_findOne, ret. simpl.
  by rewrite lookup_insert_eq.
Qed.

Lemma add_then_get_witness :
  getCartByUser Sample.carol
    (snd (addProductToCart Sample.cfg Sample.carol "tv" 1 Sample.db))
  = (Return (Cart.mk "carol@qkart" [CartItem.mk Sample.tv 1]
                     "PAYMENT_OPTION_DEFAULT"),
     snd (addProductToCart Sample.cfg Sample.carol "tv" 1 Sample.db)).
Proof.
  apply (add_then_get Sample.cfg Sample.carol "tv" 1 Sample.db).
  - intros cart Hcart. vm_compute in Hcart. by injection Hcart as <-.
  - reflexivity.
Defined.

(** X9: after [addProductToCart] has returned, adding the same product again,
    with whatever quantity, throws the 400 duplicate error and writes
    nothing: the quantity of an item in the cart is not changed by adding. *)
Theorem add_twice_is_refused (config : Config) (user : User.t)
    (productId : string) (quantity again : float) (s s' : Db) (cart' : Cart.t) :
  ownCart user s ->
  addProductToCart config user productId quantity s = (Return cart', s') ->
  addProductToCart config user productId again s'
  = (Throw (ApiError 400
              "Product already in cart. use the cart sidebar to update or remove product from cart"),
     s').
Proof.
  intros Hown Hadd.
  destruct (addProductToCart_returned _ _ _ _ _ _ _ Hown Hadd)
    as (p & Hid & _ & Hitems & ->).
  rewrite (addProductToCart_with_cart _ _ _ _ _ cart')
    by (simpl; apply lookup_insert_eq).
  destruct (Z.eqb_spec (findProductIndex productId (Cart.cartItems cart')) (-1))
    as [Hidx|Hidx]; [|reflexivity].
  apply findProductIndex_sentinel in Hidx. exfalso. apply Hidx.
  rewrite Hitems, itemIds_app. apply elem_of_app. right.
  simpl. unfold itemId. simpl. rewrite Hid. apply list_elem_of_here.
Qed.

Lemma add_twice_is_refused_witness :
  addProductToCart Sample.cfg Sample.carol "tv" 7
    (snd (addProductToCart Sample.cfg Sample.carol "tv" 1 Sample.db))
  = (Throw (ApiError 400
              "Product already in cart. use the cart sidebar to update or remove product from cart"),
     snd (addProductToCart Sample.cfg Sample.carol "tv" 1 Sample.db)).
Proof.
  apply (add_twice_is_refused Sample.cfg Sample.carol "tv" 1 7 Sample.db _
           (Cart.mk "carol@qkart" [CartItem.mk Sample.tv 1]
                    "PAYMENT_OPTION_DEFAULT")).
  - intros cart Hcart. vm_compute in Hcart. by injection Hcart as <-.
  - reflexivity.
Defined.

(** X10: for a user who had a cart, deleting the product that
    [addProductToCart] has just added gives back the cart as it was and the
    store as it was. *)
Theorem add_then_delete_restores (config : Config) (user : User.t)
    (productId : string) (quantity : float) (s s' : Db) (cart cart' : Cart.t) :
  carts s !! User.email user = Some cart ->
  Cart.email cart = User.email user ->
  addProductToCart config user productId quantity s = (Return cart', s') ->
  deleteProductFromCart user productId s' = (Return cart, s).
Proof.
  intros Hcart Hemail.
  rewrite (addProductToCart_with_cart _ _ _ _ _ _ Hcart).
  destruct (_ =? -1); [|discriminate].
  destruct (find _ (products s)) as [p|] eqn:Hfind; [|discriminate].
  cbv zeta. intros [= <- <-].
  rewrite (deleteProductFromCart_with_cart _ _ _
             (Cart.mk (Cart.email cart)
                (Cart.cartItems cart ++ [CartItem.mk p quantity])
                (Cart.paymentOption cart)))
    by (simpl; rewrite Hemail; apply lookup_insert_eq).
  cbv zeta. simpl Cart.cartItems.
  rewrite findProductIndex_last;
    [|exact (find_matches _ _ _ Hfind)|apply not_elem_of_nil].
  replace (Z.of_nat (length (Cart.cartItems cart)) =? -1) with false
    by (symmetry; apply Z.eqb_neq; lia).
  rewrite splice1_middle, app_nil_r. simpl.
  assert (Heta :
    Cart.mk (Cart.email cart) (Cart.cartItems cart) (Cart.paymentOption cart)
    = cart) by (by destruct cart).
  rewrite Heta, insert_insert_eq, insert_id by (by rewrite Hemail).
  by destruct s.
Qed.

Lemma add_then_delete_restores_witness :
  deleteProductFromCart Sample.carol "tv"
    (snd (addProductToCart Sample.cfg Sample.carol "tv" 1 Sample.db))
  = (Return Sample.carolCart, Sample.db).
Proof.
  apply (add_then_delete_restores Sample.cfg Sample.carol "tv" 1 Sample.db _
           Sample.carolCart
           (Cart.mk "carol@qkart" [CartItem.mk Sample.tv 1]
                    "PAYMENT_OPTION_DEFAULT")); reflexivity.
Defined.

(** X11: of two [updateProductInCart] calls for the same product the second
    decides: after an update has returned, updating again gives the outcome
    and the store that the second update alone would have given. *)
Theorem update_last_write_wins (user : User.t) (productId : string)
    (q1 q2 : float) (s s1 : Db) (cart cart1 : Cart.t) :
  carts s !! User.email user = Some cart ->
  Cart.email cart = User.email user ->
  updateProductInCart user productId q1 s = (Return cart1, s1) ->
  updateProductInCart user productId q2 s1
  = updateProductInCart user productId q2 s.
Proof.
  intros Hcart Hemail.
  rewrite !(updateProductInCart_with_cart _ _ _ s _ Hcart).
  destruct (find _ (products s)) as [p|] eqn:Hfind; [|discriminate].
  cbv zeta.
  destruct (findProductIndex productId (Cart.cartItems cart) =? -1) eqn:Hidx;
    [discriminate|].
  intros [= <- <-].
  rewrite (updateProductInCart_with_cart _ _ _ _
             (Cart.mk (Cart.email cart)
                (setQuantity (Cart.cartItems cart)
                   (findProductIndex productId (Cart.cartItems cart)) q1)
                (Cart.paymentOption cart)))
    by (simpl; rewrite Hemail; apply lookup_insert_eq).
  simpl. rewrite Hfind, findProductIndex_setQuantity, Hidx.
  by rewrite setQuantity_twice, insert_insert_eq.
Qed.

Lemma update_last_write_wins_witness :
  updateProductInCart Sample.alice "tv" 9
    (snd (updateProductInCart Sample.alice "tv" 5 Sample.db))
  = updateProductInCart Sample.alice "tv" 9 Sample.db.
Proof.
  apply (update_last_write_wins Sample.alice "tv" 5 9 Sample.db _
           Sample.aliceCart
           (Cart.mk "alice@qkart"
              [CartItem.mk Sample.tv 5; CartItem.mk Sample.pen 1]
              "PAYMENT_OPTION_DEFAULT")); reflexivity.
Defined.

(** X12: when the identifiers of the user's cart are pairwise distinct, a
    [deleteProductFromCart] that has returned leaves no item with the
    product in the cart, and deleting the product again throws the 400
    not-in-cart error. *)
Theorem delete_twice_is_refused (user : User.t) (productId : string)
    (s s' : Db) (cart cart' : Cart.t) :
  carts s !! User.email user = Some cart ->
  Cart.email cart = User.email user ->
  distinctIds cart ->
  deleteProductFromCart user productId s = (Return cart', s') ->
  (productId ∉ itemIds (Cart.cartItems cart'))
  /\ deleteProductFromCart user productId s'
     = (Throw (ApiError 400 "Product not in cart"), s').
Proof.
  intros Hcart Hemail Hdistinct.
  rewrite (deleteProductFromCart_with_cart _ _ _ _ Hcart). cbv zeta.
  destruct (Z.eqb_spec (findProductIndex productId (Cart.cartItems cart)) (-1))
    as [Hidx|Hidx]; [discriminate|].
  assert (Hin : productId ∈ itemIds (Cart.cartItems cart)).
  { destruct (decide (productId ∈ itemIds (Cart.cartItems cart))); [done|].
    by rewrite findProductIndex_absent in Hidx. }
  destruct (last_occurrence _ _ Hin) as (before & item & after & Hsplit & Hid & Ha).
  unfold distinctIds in Hdistinct. rewrite Hsplit in *.
  rewrite findProductIndex_last, splice1_middle by done.
  intros [= <- <-]. simpl.
  assert (Hgone : productId ∉ itemIds (before ++ after)).
  { rewrite itemIds_app in *. simpl in Hdistinct.
    apply NoDup_app in Hdistinct as (_ & Hcross & _).
    apply not_elem_of_app. split; [|done].
    intros Hb. apply (Hcross _ Hb). rewrite Hid. apply list_elem_of_here. }
  split; [exact Hgone|].
  rewrite (deleteProductFromCart_with_cart _ _ _
             (Cart.mk (Cart.email cart) (before ++ after)
                      (Cart.paymentOption cart)))
    by (simpl; rewrite Hemail; apply lookup_insert_eq).
  cbv zeta. simpl Cart.cartItems.
  by rewrite findProductIndex_absent.
Qed.

Lemma delete_twice_is_refused_witness :
  ("tv" ∉ itemIds [CartItem.mk Sample.pen 1])
  /\ deleteProductFromCart Sample.alice "tv"
       (snd (deleteProductFromCart Sample.alice "tv" Sample.db))
     = (Throw (ApiError 400 "Product not in cart"),
        snd (deleteProductFromCart Sample.alice "tv" Sample.db)).
Proof.
  apply (delete_twice_is_refused Sample.alice "tv" Sample.db _
           Sample.aliceCart
           (Cart.mk "alice@qkart" [CartItem.mk Sample.pen 1]
                    "PAYMENT_OPTION_DEFAULT")).
  - reflexivity.
  - reflexivity.
  - unfold distinctIds. simpl.
    apply NoDup_cons. split; [|apply NoDup_singleton].
    intros Hin. apply list_elem_of_singleton in Hin. discriminate.
  - reflexivity.
Defined.

(** X13: when several items of the cart have the product,
    [deleteProductFromCart] removes the last of them only: the cart it stores
    still holds the product, in the earlier positions. *)
Theorem delete_removes_last_duplicate (user : User.t) (productId : string)
    (s : Db) (cart : Cart.t) (before after : list CartItem.t)
    (item : CartItem.t) :
  carts s !! User.email user = Some cart ->
  Cart.email cart = User.email user ->
  Cart.cartItems cart = before ++ item :: after ->
  itemId item = productId ->
  productId ∈ itemIds before ->
  productId ∉ itemIds after ->
  deleteProductFromCart user productId s
  = (Return (Cart.mk (Cart.email cart) (before ++ after)
               (Cart.paymentOption cart)),
     mkDb (<[User.email user :=
               Cart.mk (Cart.email cart) (before ++ after)
                 (Cart.paymentOption cart)]> (carts s))
          (products s) (users s))
  /\ productId ∈ itemIds (before ++ after).
Proof.
  intros Hcart Hemail Hsplit Hid Hbefore Hafter.
  rewrite (deleteProductFromCart_with_cart _ _ _ _ Hcart). cbv zeta.
  rewrite Hsplit, findProductIndex_last by done.
  replace (Z.of_nat (length before) =? -1) with false
    by (symmetry; apply Z.eqb_neq; lia).
  rewrite splice1_middle, Hemail. split; [reflexivity|].
  rewrite itemIds_app. apply elem_of_app. by left.
Qed.

Lemma delete_removes_last_duplicate_witness :
  deleteProductFromCart Sample.alice "tv" Sample.twiceDb
  = (Return (Cart.mk "alice@qkart"
               [CartItem.mk Sample.tv 1; CartItem.mk Sample.pen 1]
               "PAYMENT_OPTION_DEFAULT"),
     mkDb (<["alice@qkart" :=
               Cart.mk "alice@qkart"
                 [CartItem.mk Sample.tv 1; CartItem.mk Sample.pen 1]
                 "PAYMENT_OPTION_DEFAULT"]> (carts Sample.twiceDb))
          (products Sample.twiceDb) (users Sample.twiceDb))
  /\ "tv" ∈ itemIds [CartItem.mk Sample.tv 1; CartItem.mk Sample.pen 1].
Proof.
  apply (delete_removes_last_duplicate Sample.alice "tv" Sample.twiceDb
           Sample.twiceCart
           [CartItem.mk Sample.tv 1; CartItem.mk Sample.pen 1] []
           (CartItem.mk Sample.tv 3)).
  - reflexivity.
  - reflexivity.
  - reflexivity.
  - reflexivity.
  - vm_compute. apply list_elem_of_here.
  - apply not_elem_of_nil.
Defined.

(** ** checkout: the guards and what follows a payment *)


(** X15: with a cart that is not empty and an address check that fails,
    [checkout] throws the 400 address error and writes nothing, whatever the
    wallet holds: the address is checked before the funds. *)
Theorem checkout_address_not_set (user : User.t) (s : Db) (cart : Cart.t) :
  carts s !! User.email user = Some cart ->
  Cart.cartItems cart ≠ [] ->
  User.hasSetNonDefaultAddress user = false ->
  checkout user s = (Throw (ApiError 400 "Address not set"), s).
Proof.
  intros Hcart Hne Haddr.
  unfold checkout, bind, Cart_findOne, throw. simpl. rewrite Hcart.
  destruct (Cart.cartItems cart) as [|item rest]; [done|].
  replace (Z.of_nat (length (item :: rest)) =? 0) with false
    by (symmetry; apply Z.eqb_neq; simpl length; lia).
  by rewrite Haddr.
Qed.

Lemma checkout_address_not_set_witness :
  checkout Sample.bob Sample.db
  = (Throw (ApiError 400 "Address not set"), Sample.db).
Proof.
  apply (checkout_address_not_set Sample.bob Sample.db Sample.bobCart);
    [reflexivity | discriminate | reflexivity].
Defined.

(** X16: with a cart that is not empty, an address check that passes and a
    total, as the loop accumulates it in double arithmetic, greater than the
    wallet, [checkout] throws the 400 insufficient-money error and writes
    nothing: no partial debit, the cart keeps its items. *)
Theorem checkout_insufficient_money (user : User.t) (s : Db) (cart : Cart.t) :
  carts s !! User.email user = Some cart ->
  Cart.cartItems cart ≠ [] ->
  User.hasSetNonDefaultAddress user = true ->
  (User.walletMoney user <? cartTotal (Cart.cartItems cart))%float = true ->
  checkout user s
  = (Throw (ApiError 400 "User has insufficient money to process"), s).
Proof.
  intros Hcart Hne Haddr Hfunds.
  unfold checkout, bind, Cart_findOne, throw. simpl. rewrite Hcart.
  destruct (Cart.cartItems cart) as [|item rest]; [done|].
  replace (Z.of_nat (length (item :: rest)) =? 0) with false
    by (symmetry; apply Z.eqb_neq; simpl length; lia).
  rewrite Haddr. simpl negb. cbv iota zeta.
  by rewrite Hfunds.
Qed.

Lemma checkout_insufficient_money_witness :
  checkout Sample.poorAlice Sample.db
  = (Throw (ApiError 400 "User has insufficient money to process"), Sample.db).
Proof.
  apply (checkout_insufficient_money Sample.poorAlice Sample.db Sample.aliceCart);
    [reflexivity | discriminate | reflexivity | reflexivity].
Defined.

(** X17: after a [checkout] that has returned, a second [checkout] for the
    same email throws the 400 empty-cart error and writes nothing: a cart is
    paid for once. *)
Theorem checkout_twice_is_refused (user again : User.t) (s s' : Db)
    (cart : Cart.t) :
  carts s !! User.email user = Some cart ->
  Cart.email cart = User.email user ->
  User.email again = User.email user ->
  checkout user s = (Return tt, s') ->
  checkout again s' = (Throw (ApiError 400 "Cart is empty"), s').
Proof.
  intros Hcart Hemail Hagain Hrun.
  destruct (checkout_returned _ _ _ Hrun) as (cart0 & Hcart0 & Hne & Haddr & Hfunds).
  rewrite (checkout_pays _ _ _ Hcart0 Hne Haddr Hfunds) in Hrun.
  injection Hrun as <-.
  rewrite Hcart in Hcart0. injection Hcart0 as <-.
  unfold checkout, bind, Cart_findOne, throw. simpl.
  by rewrite Hagain, Hemail, lookup_insert_eq.
Qed.

Lemma checkout_twice_is_refused_witness :
  checkout (User.mk "alice@qkart" 0 true) (snd (checkout Sample.alice Sample.db))
  = (Throw (ApiError 400 "Cart is empty"),
     snd (checkout Sample.alice Sample.db)).
Proof.
  apply (checkout_twice_is_refused Sample.alice (User.mk "alice@qkart" 0 true)
           Sample.db _ Sample.aliceCart); reflexivity.
Defined.




(** ** updateProductInCart: the order of its checks *)

(** X19: for a user with a cart, [updateProductInCart] looks the product up
    in the products collection before it scans the cart. A product that the
    collection does not have gives the 400 product-not-found error even when
    the cart holds an item with that identifier; a product that the
    collection has and the cart does not gives the 400 not-in-cart error.
    Neither path writes. *)
Theorem updateProductInCart_errors (user : User.t) (productId : string)
    (quantity : float) (s : Db) (cart : Cart.t) :
  carts s !! User.email user = Some cart ->
  (absentFromProducts productId s ->
     updateProductInCart user productId quantity s
     = (Throw (ApiError 400 "Product doesn't exist in database"), s))
  /\ (forall product,
        Product_findOne productId s = (Return (Some product), s) ->
        productId ∉ itemIds (Cart.cartItems cart) ->
        updateProductInCart user productId quantity s
        = (Throw (ApiError 400 "Product not in cart"), s)).
Proof.
  intros Hcart.
  rewrite (updateProductInCart_with_cart _ _ _ _ _ Hcart).
  split.
  - intros Habsent. by rewrite (find_absent _ _ Habsent).
  - intros product Hfind Hnot.
    unfold Product_findOne in Hfind. injection Hfind as Hfind.
    rewrite Hfind. cbv zeta. by rewrite findProductIndex_absent.
Qed.

Lemma updateProductInCart_errors_witness :
  "tv" ∈ itemIds (Cart.cartItems Sample.aliceCart)
  /\ updateProductInCart Sample.alice "tv" 5 Sample.staleDb
     = (Throw (ApiError 400 "Product doesn't exist in database"),
        Sample.staleDb)
  /\ updateProductInCart Sample.carol "tv" 5 Sample.db
     = (Throw (ApiError 400 "Product not in cart"), Sample.db).
Proof.
  split; [vm_compute; apply list_elem_of_here|]. split.
  - apply (proj1 (updateProductInCart_errors Sample.alice "tv" 5 Sample.staleDb
                    Sample.aliceCart eq_refl)).
    repeat constructor; discriminate.
  - apply (proj2 (updateProductInCart_errors Sample.carol "tv" 5 Sample.db
                    Sample.carolCart eq_refl) Sample.tv).
    + reflexivity.
    + apply not_elem_of_nil.
Defined.

(** ** What a call may write *)

Lemma writesOnlyFor_same (user : User.t) (s : Db) : writesOnlyFor user s s.
Proof. by repeat split. Qed.

Lemma writesOnlyFor_cart (user : User.t) (s : Db) (cart : Cart.t) :
  writesOnlyFor user s
    (mkDb (<[User.email user := cart]> (carts s)) (products s) (users s)).
Proof.
  split; [done|]. split; simpl; [|done].
  intros email Hne. by apply lookup_insert_ne.
Qed.

Ltac written_for_user :=
  split;
  [ first [apply writesOnlyFor_same | apply writesOnlyFor_cart]
  | reflexivity ].

(** X20: a call for a user whose cart carries the user's email writes, at
    most, the cart stored under that email and (for [checkout]) the user
    stored under that email: the products are never written, nor any cart or
    user stored under another email; and only [checkout] writes a user. *)
Theorem service_writes_only_for (config : Config) (user : User.t)
    (productId : string) (quantity : float) (s : Db) :
  ownCart user s ->
  (writesOnlyFor user s (stateAfter (getCartByUser user s))
   /\ users (stateAfter (getCartByUser user s)) = users s)
  /\ (writesOnlyFor user s
        (stateAfter (addProductToCart config user productId quantity s))
      /\ users (stateAfter (addProductToCart config user productId quantity s))
         = users s)
  /\ (writesOnlyFor user s
        (stateAfter (updateProductInCart user productId quantity s))
      /\ users (stateAfter (updateProductInCart user productId quantity s))
         = users s)
  /\ (writesOnlyFor user s
        (stateAfter (deleteProductFromCart user productId s))
      /\ users (stateAfter (deleteProductFromCart user productId s)) = users s)
  /\ writesOnlyFor user s (stateAfter (checkout user s)).
Proof.
  intros Hown. unfold stateAfter.
  destruct (carts s !! User.email user) as [cart|] eqn:Hcart.
  - rewrite (addProductToCart_with_cart _ _ _ _ _ _ Hcart),
      (updateProductInCart_with_cart _ _ _ _ _ Hcart),
      (deleteProductFromCart_with_cart _ _ _ _ Hcart).
    rewrite (Hown _ Hcart). cbv zeta.
    split; [|split; [|split; [|split]]].
    + unfold getCartByUser, bind, Cart_findOne, ret. simpl. rewrite Hcart.
      written_for_user.
    + destruct (_ =? -1); [|written_for_user].
      destruct (find _ (products s)); written_for_user.
    + destruct (find _ (products s)); [|written_for_user].
      destruct (_ =? -1); written_for_user.
    + destruct (_ =? -1); written_for_user.
    + destruct (checkout_state user s) as [Hsame|(c & u' & Hc & Hstate)];
        unfold stateAfter in *.
      * rewrite Hsame. apply writesOnlyFor_same.
      * rewrite Hstate. rewrite Hcart in Hc. injection Hc as <-.
        rewrite (Hown _ Hcart).
        repeat split; simpl; intros email Hne; by apply lookup_insert_ne.
  - rewrite (addProductToCart_no_cart _ _ _ _ _ Hcart).
    unfold getCartByUser, updateProductInCart, deleteProductFromCart,
      checkout, bind, Cart_findOne, throw. simpl. rewrite Hcart. simpl.
    split; [|split; [|split; [|split]]];
      try written_for_user; try apply writesOnlyFor_same.
    destruct (find _ (products s)); simpl; rewrite ?insert_insert_eq;
      written_for_user.
Qed.

Lemma service_writes_only_for_witness :
  writesOnlyFor Sample.alice Sample.db
    (stateAfter (addProductToCart Sample.cfg Sample.alice "radio" 1 Sample.db))
  /\ writesOnlyFor Sample.alice Sample.db
       (stateAfter (updateProductInCart Sample.alice "tv" 5 Sample.db))
  /\ writesOnlyFor Sample.alice Sample.db
       (stateAfter (deleteProductFromCart Sample.alice "tv" Sample.db))
  /\ writesOnlyFor Sample.alice Sample.db
       (stateAfter (checkout Sample.alice Sample.db)).
Proof.
  destruct (service_writes_only_for Sample.cfg Sample.alice "radio" 1 Sample.db)
    as (_ & [Hadd _] & _ & _ & Hcheckout).
  { intros cart Hcart. vm_compute in Hcart. by injection Hcart as <-. }
  destruct (service_writes_only_for Sample.cfg Sample.alice "tv" 5 Sample.db)
    as (_ & _ & [Hupdate _] & [Hdelete _] & _).
  { intros cart Hcart. vm_compute in Hcart. by injection Hcart as <-. }
  repeat split; first [apply Hadd | apply Hupdate | apply Hdelete | apply Hcheckout].
Defined.

Lemma cartsKept_same (s : Db) : cartsKept s s.
Proof. intros email cart Hcart. by exists cart. Qed.

(** Storing, under the user's email, a cart with the email and payment
    option of the one found there (or a cart for a user who had none) keeps
    every cart. *)
Lemma cartsKept_save (user : User.t) (s : Db) (cart' : Cart.t) :
  (forall cart,
     carts s !! User.email user = Some cart ->
     Cart.email cart' = Cart.email cart
     /\ Cart.paymentOption cart' = Cart.paymentOption cart) ->
  cartsKept s
    (mkDb (<[User.email user := cart']> (carts s)) (products s) (users s)).
Proof.
  intros Hsame email cart Hcart. simpl.
  destruct (decide (User.email user = email)) as [<-|Hne].
  - exists cart'. split; [apply lookup_insert_eq|]. by apply Hsame.
  - exists cart. by rewrite lookup_insert_ne.
Qed.

(** X22: no operation of the service removes a cart or changes the email or
    the payment option of one: every cart stored before a call of
    [addProductToCart], [updateProductInCart], [deleteProductFromCart] or
    [checkout] is still stored after it, under the same key, with the same
    email and payment option. *)
Theorem carts_are_kept (config : Config) (user : User.t)
    (productId : string) (quantity : float) (s : Db) :
  ownCart user s ->
  cartsKept s (stateAfter (addProductToCart config user productId quantity s))
  /\ cartsKept s (stateAfter (updateProductInCart user productId quantity s))
  /\ cartsKept s (stateAfter (deleteProductFromCart user productId s))
  /\ cartsKept s (stateAfter (checkout user s)).
Proof.
  intros Hown. unfold stateAfter.
  destruct (carts s !! User.email user) as [cart|] eqn:Hcart.
  - assert (Hsave : forall items,
      cartsKept s
        (mkDb (<[Cart.email cart :=
                   Cart.mk (Cart.email cart) items (Cart.paymentOption cart)]>
                 (carts s)) (products s) (users s))).
    { intros items. rewrite (Hown _ Hcart) at 1. apply cartsKept_save.
      intros found Hfound. rewrite Hcart in Hfound. by injection Hfound as <-. }
    rewrite (addProductToCart_with_cart _ _ _ _ _ _ Hcart),
      (updateProductInCart_with_cart _ _ _ _ _ Hcart),
      (deleteProductFromCart_with_cart _ _ _ _ Hcart).
    cbv zeta. split; [|split; [|split]].
    + destruct (_ =? -1); [|apply cartsKept_same].
      destruct (find _ (products s)); [apply Hsave|apply cartsKept_same].
    + destruct (find _ (products s)); [|apply cartsKept_same].
      destruct (_ =? -1); [apply cartsKept_same|apply Hsave].
    + destruct (_ =? -1); [apply cartsKept_same|apply Hsave].
    + destruct (checkout_state user s) as [Hsame|(c & u' & Hc & Hstate)];
        unfold stateAfter in *.
      * rewrite Hsame. apply cartsKept_same.
      * rewrite Hstate. rewrite Hcart in Hc. injection Hc as <-.
        intros email found Hfound. simpl.
        destruct (decide (Cart.email cart = email)) as [<-|Hne].
        -- rewrite lookup_insert_eq. eexists. split; [reflexivity|].
           rewrite (Hown _ Hcart), Hcart in Hfound.
           by injection Hfound as <-.
        -- exists found. by rewrite lookup_insert_ne.
  - rewrite (addProductToCart_no_cart _ _ _ _ _ Hcart).
    unfold updateProductInCart, deleteProductFromCart, checkout, bind,
      Cart_findOne, throw. simpl. rewrite Hcart. simpl.
    split; [|repeat split; apply cartsKept_same].
    destruct (find _ (products s)); simpl; rewrite ?insert_insert_eq;
      apply cartsKept_save; intros found Hfound; congruence.
Qed.

Lemma carts_are_kept_witness :
  cartsKept Sample.db
    (stateAfter (addProductToCart Sample.cfg Sample.alice "radio" 1 Sample.db))
  /\ cartsKept Sample.db
       (stateAfter (updateProductInCart Sample.alice "radio" 1 Sample.db))
  /\ cartsKept Sample.db
       (stateAfter (deleteProductFromCart Sample.alice "radio" Sample.db))
  /\ cartsKept Sample.db (stateAfter (checkout Sample.alice Sample.db)).
Proof.
  apply (carts_are_kept Sample.cfg Sample.alice "radio" 1 Sample.db).
  intros cart Hcart. vm_compute in Hcart. by injection Hcart as <-.
Defined.

(** ** After a failed first add *)

(** X23: after [addProductToCart] has failed for a user without a cart
    because the product is not in the products collection, the user has a
    cart: [getCartByUser] returns the empty cart instead of throwing 404,
    and [checkout] throws the 400 empty-cart error instead of 404. *)
Theorem failed_first_add_is_visible (config : Config) (user : User.t)
    (productId : string) (quantity : float) (s : Db) :
  carts s !! User.email user = None ->
  absentFromProducts productId s ->
  getCartByUser user
    (stateAfter (addProductToCart config user productId quantity s))
  = (Return (Cart.mk (User.email user) [] (default_payment_option config)),
     stateAfter (addProductToCart config user productId quantity s))
  /\ checkout user
       (stateAfter (addProductToCart config user productId quantity s))
     = (Throw (ApiError 400 "Cart is empty"),
        stateAfter (addProductToCart config user productId quantity s)).
Proof.
  intros Hnone Habsent.
  rewrite (addProductToCart_no_cart _ _ _ _ _ Hnone).
  rewrite (find_absent _ _ Habsent). unfold stateAfter. simpl.
  unfold getCartByUser, checkout, bind, Cart_findOne, ret, throw. simpl.
  by rewrite lookup_insert_eq.
Qed.

Lemma failed_first_add_is_visible_witness :
  getCartByUser Sample.alice
    (stateAfter (addProductToCart Sample.cfg Sample.alice "radio" 1 Sample.noCarts))
  = (Return (Cart.mk "alice@qkart" [] "PAYMENT_OPTION_DEFAULT"),
     stateAfter (addProductToCart Sample.cfg Sample.alice "radio" 1 Sample.noCarts))
  /\ checkout Sample.alice
       (stateAfter (addProductToCart Sample.cfg Sample.alice "radio" 1 Sample.noCarts))
     = (Throw (ApiError 400 "Cart is empty"),
        stateAfter (addProductToCart Sample.cfg Sample.alice "radio" 1 Sample.noCarts)).
Proof.
  apply (failed_first_add_is_visible Sample.cfg Sample.alice "radio" 1
           Sample.noCarts).
  - reflexivity.
  - repeat constructor; discriminate.
Defined.

(** ** The total after an add *)

(** X24: when [addProductToCart] returns, the total that the loop of
    [checkout] accumulates for the returned cart is the total it accumulated
    for the cart before (zero for a new cart) plus the cost of the product
    found in the collection times the quantity given, the sum and the
    product taken in double arithmetic. *)
Theorem add_raises_total (config : Config) (user : User.t)
    (productId : string) (quantity : float) (s s' : Db) (cart' : Cart.t)
    (product : Product.t) :
  Product_findOne productId s = (Return (Some product), s) ->
  addProductToCart config user productId quantity s = (Return cart', s') ->
  cartTotal (Cart.cartItems cart')
  = (cartTotal (from_option Cart.cartItems [] (carts s !! User.email user))
     + Product.cost product * quantity)%float.
Proof.
  intros Hfind. unfold Product_findOne in Hfind. injection Hfind as Hfind.
  destruct (carts s !! User.email user) as [cart|] eqn:Hcart.
  - rewrite (addProductToCart_with_cart _ _ _ _ _ _ Hcart).
    destruct (_ =? -1); [|discriminate].
    rewrite Hfind. cbv zeta. intros [= <- _]. simpl.
    unfold cartTotal. by rewrite fold_left_app.
  - rewrite (addProductToCart_no_cart _ _ _ _ _ Hcart).
    rewrite Hfind. cbv zeta. by intros [= <- _].
Qed.

Lemma add_raises_total_witness :
  cartTotal [CartItem.mk Sample.tv 2; CartItem.mk Sample.pen 1;
             CartItem.mk (Product.mk "radio" 20) 3]
  = (cartTotal (from_option Cart.cartItems []
                  (carts Sample.radioDb !! User.email Sample.alice))
     + Product.cost (Product.mk "radio" 20) * 3)%float.
Proof.
  apply (add_raises_total Sample.cfg Sample.alice "radio" 3 Sample.radioDb
           (snd (addProductToCart Sample.cfg Sample.alice "radio" 3
                   Sample.radioDb))
           (Cart.mk "alice@qkart"
              [CartItem.mk Sample.tv 2; CartItem.mk Sample.pen 1;
               CartItem.mk (Product.mk "radio" 20) 3]
              "PAYMENT_OPTION_DEFAULT")
           (Product.mk "radio" 20)); reflexivity.
Defined.
